(** * A shallow embedding of the Vectara financial-analysis dashboard (src/app.py)

    The live code is the first part of [src/app.py]: the class
    [VectaraClient], [initialize_vectara], [extract_metrics_from_response]
    and the three Streamlit tabs.  This development embeds

    - the subset of Python's [re] module used by the metric extractor: the
      pattern strings are parsed as [re] parses them (the metric name is
      spliced into the pattern without escaping) and searched with a
      backtracking matcher following [sre]'s priorities, with [re.IGNORECASE];
    - [extract_metrics_from_response] over JSON values, with the Python
      exceptions its operations can raise;
    - the client's remote operations in a small exception-and-trace monad:
      every HTTP request is appended to a trace, the server is an oracle;
    - the Streamlit session (connect, disconnect, upload, query, list) as a
      step function over the session state.

    Characters are ASCII; JSON numbers are integers; dictionaries are
    association lists whose keys are unique (as [json.loads] builds them). *)

From Stdlib Require Import
  Bool Arith Lia List ZArith
  Strings.String Strings.Ascii Numbers.DecimalString.
Import ListNotations.

Open Scope list_scope.
Open Scope string_scope.
Set Warnings "-register-all".

(* ------------------------------------------------------------------ *)
(** ** Characters and strings *)

Definition char_eqb (a b : ascii) : bool := Ascii.eqb a b.

Definition is_upper (c : ascii) : bool :=
  let n := nat_of_ascii c in (Nat.leb 65 n) && (Nat.leb n 90).

Definition is_lower (c : ascii) : bool :=
  let n := nat_of_ascii c in (Nat.leb 97 n) && (Nat.leb n 122).

Definition lower (c : ascii) : ascii :=
  if is_upper c then ascii_of_nat (nat_of_ascii c + 32) else c.

Definition upper (c : ascii) : ascii :=
  if is_lower c then ascii_of_nat (nat_of_ascii c - 32) else c.

(** Comparison of two characters under [re.IGNORECASE]. *)
Definition ci_eq (a b : ascii) : bool := char_eqb (lower a) (lower b).

Definition is_digit (c : ascii) : bool :=
  let n := nat_of_ascii c in (Nat.leb 48 n) && (Nat.leb n 57).

Definition digit_val (c : ascii) : nat := nat_of_ascii c - 48.

Definition is_ascii_letter (c : ascii) : bool := is_upper c || is_lower c.

(** [\s] on str patterns, restricted to ASCII: space, \t \n \v \f \r and
    the separators \x1c-\x1f (all of them satisfy [str.isspace]). *)
Definition is_space (c : ascii) : bool :=
  let n := nat_of_ascii c in ((Nat.leb 9 n) && (Nat.leb n 13)) || ((Nat.leb 28 n) && (Nat.leb n 32)).

Definition is_word (c : ascii) : bool :=
  is_ascii_letter c || is_digit c || char_eqb c "_"%char.

Definition chars (s : string) : list ascii := list_ascii_of_string s.
Definition of_chars (l : list ascii) : string := string_of_list_ascii l.

(** Python's [str(int)]. *)
Definition Z_to_string (z : Z) : string := NilEmpty.string_of_int (Z.to_int z).
Definition nat_to_string (n : nat) : string := Z_to_string (Z.of_nat n).

(** Python's [needle in haystack] on strings. *)
Fixpoint prefixb (p s : list ascii) : bool :=
  match p, s with
  | [], _ => true
  | a :: p', b :: s' => char_eqb a b && prefixb p' s'
  | _ :: _, [] => false
  end.

Fixpoint occursb (p s : list ascii) : bool :=
  prefixb p s || match s with [] => false | _ :: s' => occursb p s' end.

Definition str_contains (needle hay : string) : bool := occursb (chars needle) (chars hay).

(* ------------------------------------------------------------------ *)
(** ** Python exceptions and results *)

Inductive exn : Type :=
| ReError                    (* re.error: the pattern does not compile *)
| TypeError (msg : string)
| AttributeError (msg : string)
| ValueError (msg : string)
| JSONDecodeError (msg : string)
| ConnectionError (msg : string)  (* anything raised by requests.get/post *)
| Rerun.                           (* st.rerun(): Streamlit's control exception, a
                                      BaseException that [except Exception] misses *)

Definition exn_str (e : exn) : string :=
  match e with
  | ReError => "bad pattern"
  | TypeError m | AttributeError m | ValueError m
  | JSONDecodeError m | ConnectionError m => m
  | Rerun => "rerun"
  end.

(** A computation either returns, raises, or reaches a feature of [re]
    outside the modelled subset ([Unmodelled]: the model claims nothing). *)
Inductive res (A : Type) : Type :=
| Ok (a : A)
| Exc (e : exn)
| Unmodelled.
Arguments Ok {A} a.
Arguments Exc {A} e.
Arguments Unmodelled {A}.

Definition res_bind {A B} (m : res A) (f : A -> res B) : res B :=
  match m with
  | Ok a => f a
  | Exc e => Exc e
  | Unmodelled => Unmodelled
  end.

Notation "'let!' x := m 'in' f" := (res_bind m (fun x => f))
  (at level 200, x name, m at level 100, f at level 200).

(* ------------------------------------------------------------------ *)
(** ** JSON values as [response.json()] returns them *)

Inductive json : Type :=
| JNull
| JBool (b : bool)
| JNum (z : Z)
| JStr (s : string)
| JArr (l : list json)
| JObj (d : list (string * json)).

Fixpoint dict_get (d : list (string * json)) (k : string) : option json :=
  match d with
  | [] => None
  | (k', v) :: d' => if String.eqb k k' then Some v else dict_get d' k
  end.

(** Python truthiness. *)
Definition truthy (v : json) : bool :=
  match v with
  | JNull => false
  | JBool b => b
  | JNum z => negb (Z.eqb z 0)
  | JStr s => negb (String.eqb s EmptyString)
  | JArr l => match l with [] => false | _ => true end
  | JObj d => match d with [] => false | _ => true end
  end.

Definition type_name (v : json) : string :=
  match v with
  | JNull => "NoneType" | JBool _ => "bool" | JNum _ => "int"
  | JStr _ => "str" | JArr _ => "list" | JObj _ => "dict"
  end.

(** [key in v] for a string [key]. *)
Definition py_in (key : string) (v : json) : res bool :=
  match v with
  | JObj d => Ok (match dict_get d key with Some _ => true | None => false end)
  | JArr l => Ok (existsb (fun x => match x with JStr s => String.eqb s key | _ => false end) l)
  | JStr s => Ok (str_contains key s)
  | _ => Exc (TypeError ("argument of type '" ++ type_name v ++ "' is not iterable"))
  end.

(** [v[key]] for a string [key]. *)
Definition py_getitem (v : json) (key : string) : res json :=
  match v with
  | JObj d => match dict_get d key with
              | Some x => Ok x
              | None => Exc (TypeError "KeyError")
              end
  | JArr _ => Exc (TypeError "list indices must be integers or slices, not str")
  | JStr _ => Exc (TypeError "string indices must be integers, not 'str'")
  | _ => Exc (TypeError ("'" ++ type_name v ++ "' object is not subscriptable"))
  end.

(** [v[:n]], iterated: a list slice, or the one-character strings of a str slice. *)
Definition py_slice_prefix (n : nat) (v : json) : res (list json) :=
  match v with
  | JArr l => Ok (firstn n l)
  | JStr s => Ok (map (fun c => JStr (String c EmptyString)) (firstn n (chars s)))
  | JObj _ => Exc (TypeError "unhashable type: 'slice'")
  | _ => Exc (TypeError ("'" ++ type_name v ++ "' object is not subscriptable"))
  end.

(** The double-quote character, as a one-character string. *)
Definition dq : string := String "034"%char EmptyString.

(** [" " + v] *)
Definition py_space_plus (v : json) : res string :=
  match v with
  | JStr s => Ok (" " ++ s)
  | _ => Exc (TypeError ("can only concatenate str (not " ++ dq ++ type_name v ++ dq ++ ") to str"))
  end.

(* ------------------------------------------------------------------ *)
(** ** The [re] module: syntax

    Parsed patterns.  Sequences are right-nested and end in [REmpty];
    groups carry the number [sre_parse] gives them (order of their opening
    parenthesis). *)

Inductive class_item : Type :=
| CChar (c : ascii)
| CRange (lo hi : ascii)
| CDigit | CNotDigit | CSpace | CNotSpace | CWord | CNotWord.

Inductive regex : Type :=
| REmpty
| RChar (c : ascii)
| RAny
| RSet (neg : bool) (items : list class_item)
| RSeq (r1 r2 : regex)
| RAlt (r1 r2 : regex)
| RGroup (g : nat) (r : regex)
| RRep (r : regex) (lo : nat) (hi : option nat) (greedy : bool).

(** The outcome of compiling: a pattern, [re.error], or syntax outside the
    modelled subset (anchors, lookarounds, backreferences, ...). *)
Inductive presult (A : Type) : Type :=
| POk (a : A)
| PErr
| PUnsup.
Arguments POk {A} a.
Arguments PErr {A}.
Arguments PUnsup {A}.

Definition c_is (c : ascii) (n : nat) : bool := Nat.eqb (nat_of_ascii c) n.

(** Category escapes, shared by patterns and classes. *)
Definition category (c : ascii) : option class_item :=
  if char_eqb c "d" then Some CDigit
  else if char_eqb c "D" then Some CNotDigit
  else if char_eqb c "s" then Some CSpace
  else if char_eqb c "S" then Some CNotSpace
  else if char_eqb c "w" then Some CWord
  else if char_eqb c "W" then Some CNotWord
  else None.

(** The one-letter control escapes [\a \f \n \r \t \v]. *)
Definition control_escape (c : ascii) : option ascii :=
  if char_eqb c "a" then Some (ascii_of_nat 7)
  else if char_eqb c "f" then Some (ascii_of_nat 12)
  else if char_eqb c "n" then Some (ascii_of_nat 10)
  else if char_eqb c "r" then Some (ascii_of_nat 13)
  else if char_eqb c "t" then Some (ascii_of_nat 9)
  else if char_eqb c "v" then Some (ascii_of_nat 11)
  else None.

(** [sre_parse._escape]: an escape outside a class. *)
Definition p_escape (c : ascii) : presult regex :=
  match category c with
  | Some it => POk (RSet false [it])
  | None =>
    match control_escape c with
    | Some x => POk (RChar x)
    | None =>
      if is_digit c then PUnsup                      (* backreference / octal *)
      else if existsb (char_eqb c) ["x"; "u"; "U"; "N"; "A"; "b"; "B"; "Z"]%char
      then PUnsup                                    (* hex, names, anchors *)
      else if is_ascii_letter c then PErr            (* bad escape *)
      else POk (RChar c)
    end
  end.

(** [sre_parse._class_escape]: an escape inside a class; [inr] is a literal. *)
Definition p_class_escape (c : ascii) : presult (class_item + ascii) :=
  match category c with
  | Some it => POk (inl it)
  | None =>
    match control_escape c with
    | Some x => POk (inr x)
    | None =>
      if char_eqb c "b" then POk (inr (ascii_of_nat 8))
      else if is_digit c then PUnsup
      else if existsb (char_eqb c) ["x"; "u"; "U"; "N"]%char then PUnsup
      else if is_ascii_letter c then PErr
      else POk (inr c)
    end
  end.

(** One member of a class (a literal or a category) at the head of [s]. *)
Definition p_class_atom (c : ascii) (s : list ascii)
  : presult ((class_item + ascii) * list ascii) :=
  if char_eqb c "\" then
    match s with
    | [] => PErr
    | e :: s' => match p_class_escape e with
                 | POk x => POk (x, s')
                 | PErr => PErr
                 | PUnsup => PUnsup
                 end
    end
  else POk (inr c, s).

Definition item_of (x : class_item + ascii) : class_item :=
  match x with inl it => it | inr c => CChar c end.

(** The members of a class after [[] or [[^], up to its closing bracket;
    [first] marks the position where [] is a literal. *)
Fixpoint p_class_items (fuel : nat) (first : bool) (s : list ascii)
  (acc : list class_item) : presult (list class_item * list ascii) :=
  match fuel with
  | O => PUnsup
  | S f =>
    match s with
    | [] => PErr                                    (* unterminated character set *)
    | c :: s1 =>
      if char_eqb c "]" && negb first then POk (rev acc, s1)
      else
        match p_class_atom c s1 with
        | PErr => PErr
        | PUnsup => PUnsup
        | POk (x1, s2) =>
          match s2 with
          | m :: s3 =>
            if char_eqb m "-" then
              match s3 with
              | [] => PErr
              | d :: s4 =>
                if char_eqb d "]" then POk (rev (CChar "-"%char :: item_of x1 :: acc), s4)
                else
                  match p_class_atom d s4 with
                  | PErr => PErr
                  | PUnsup => PUnsup
                  | POk (x2, s5) =>
                    match x1, x2 with
                    | inr lo, inr hi =>
                      if Nat.ltb (nat_of_ascii hi) (nat_of_ascii lo) then PErr
                      else p_class_items f false s5 (CRange lo hi :: acc)
                    | _, _ => PErr                     (* bad character range *)
                    end
                  end
              end
            else p_class_items f false s2 (item_of x1 :: acc)
          | [] => p_class_items f false s2 (item_of x1 :: acc)
          end
        end
    end
  end.

(** A class, after its opening bracket. *)
Definition p_class (s : list ascii) : presult (regex * list ascii) :=
  let '(neg, s1) := match s with
                    | c :: s' => if char_eqb c "^" then (true, s') else (false, s)
                    | [] => (false, s)
                    end in
  match p_class_items (S (List.length s1)) true s1 [] with
  | POk (its, s2) => POk (RSet neg its, s2)
  | PErr => PErr
  | PUnsup => PUnsup
  end.

Fixpoint read_digits (s : list ascii) (acc : list ascii) : list ascii * list ascii :=
  match s with
  | c :: s' => if is_digit c then read_digits s' (acc ++ [c])%list else (acc, s)
  | [] => (acc, s)
  end.

Definition digits_value (l : list ascii) : nat :=
  fold_left (fun n c => n * 10 + digit_val c) l 0.

(** The brace quantifier after [{]: [None] when [{] is a literal. *)
Definition p_brace (s : list ascii) : option (option nat * option nat * list ascii) :=
  match s with
  | c :: _ => if char_eqb c "}" then None else
    let '(lo, s1) := read_digits s [] in
    let '(hi, s2, had_comma) :=
      match s1 with
      | d :: s1' => if char_eqb d "," then let '(h, s') := read_digits s1' [] in (h, s', true)
                   else (lo, s1, false)
      | [] => (lo, s1, false)
      end in
    match s2 with
    | e :: s3 =>
      if char_eqb e "}" then
        Some (match lo with [] => None | _ => Some (digits_value lo) end,
              match hi with [] => None | _ => Some (digits_value hi) end, s3)
      else None
    | [] => None
    end
  | [] => None
  end.

(** The repeat at the head of [s], if any: bounds and the rest. *)
Definition p_quant (s : list ascii) : option (nat * option nat * list ascii) :=
  match s with
  | c :: s' =>
    if char_eqb c "*" then Some (0, None, s')
    else if char_eqb c "+" then Some (1, None, s')
    else if char_eqb c "?" then Some (0, Some 1, s')
    else if char_eqb c "{" then
      match p_brace s' with
      | Some (lo, hi, s'') => Some (match lo with Some n => n | None => 0 end, hi, s'')
      | None => None
      end
    else None
  | [] => None
  end.

Definition seq_of (acc : list (regex * bool)) : regex :=
  fold_left (fun r a => RSeq (fst a) r) acc REmpty.

(** [sre_parse]: alternatives, sequences (with their repeats) and atoms.
    [g] is the number the next capturing group gets.  The sequence
    accumulator holds the items read so far, last first, each flagged when
    it is a repeat. *)
Fixpoint p_alt (n g : nat) (s : list ascii) {struct n}
  : presult (regex * nat * list ascii) :=
  match n with
  | O => PUnsup
  | S n' =>
    match p_seq n' g s [] with
    | POk (r, g', d :: s') =>
      if char_eqb d "|" then
        match p_alt n' g' s' with
        | POk (r2, g2, s2) => POk (RAlt r r2, g2, s2)
        | PErr => PErr
        | PUnsup => PUnsup
        end
      else POk (r, g', d :: s')
    | x => x
    end
  end
with p_seq (n g : nat) (s : list ascii) (acc : list (regex * bool)) {struct n}
  : presult (regex * nat * list ascii) :=
  match n with
  | O => PUnsup
  | S n' =>
    match s with
    | [] => POk (seq_of acc, g, [])
    | c :: _ =>
      if char_eqb c "|" || char_eqb c ")" then POk (seq_of acc, g, s)
      else
        match p_quant s with
        | Some (lo, hi, s1) =>
          if match hi with Some h => Nat.ltb h lo | None => false end
          then PErr                                  (* min repeat greater than max *)
          else
            match acc with
            | [] => PErr                             (* nothing to repeat *)
            | (_, true) :: _ => if char_eqb c "+" then PUnsup else PErr (* multiple repeat *)
            | (a, false) :: acc' =>
              match s1 with
              | d :: s2 =>
                if char_eqb d "?" then p_seq n' g s2 ((RRep a lo hi false, true) :: acc')
                else if char_eqb d "+" then PUnsup   (* possessive repeat *)
                else p_seq n' g s1 ((RRep a lo hi true, true) :: acc')
              | [] => p_seq n' g s1 ((RRep a lo hi true, true) :: acc')
              end
            end
        | None =>
          match p_atom n' g s with
          | POk (a, g', s1) => p_seq n' g' s1 ((a, false) :: acc)
          | PErr => PErr
          | PUnsup => PUnsup
          end
        end
    end
  end
with p_atom (n g : nat) (s : list ascii) {struct n}
  : presult (regex * nat * list ascii) :=
  match n with
  | O => PUnsup
  | S n' =>
    match s with
    | [] => PErr
    | c :: s' =>
      if char_eqb c "(" then
        match s' with
        | q :: s'' =>
          if char_eqb q "?" then
            match s'' with
            | col :: s3 =>
              if char_eqb col ":" then
                match p_alt n' g s3 with
                | POk (r, g', d :: s4) => if char_eqb d ")" then POk (r, g', s4) else PErr
                | POk (_, _, []) => PErr             (* missing ), unterminated subpattern *)
                | PErr => PErr
                | PUnsup => PUnsup
                end
              else PUnsup                            (* (?P<..>, (?=, (?i) ... *)
            | [] => PErr
            end
          else
            match p_alt n' (S g) s' with
            | POk (r, g', d :: s4) => if char_eqb d ")" then POk (RGroup g r, g', s4) else PErr
            | POk (_, _, []) => PErr                 (* missing ), unterminated subpattern *)
            | PErr => PErr
            | PUnsup => PUnsup
            end
        | [] => PErr
        end
      else if char_eqb c "[" then
        match p_class s' with
        | POk (r, s1) => POk (r, g, s1)
        | PErr => PErr
        | PUnsup => PUnsup
        end
      else if char_eqb c "\" then
        match s' with
        | [] => PErr                                 (* bad escape (end of pattern) *)
        | e :: s1 => match p_escape e with
                     | POk r => POk (r, g, s1)
                     | PErr => PErr
                     | PUnsup => PUnsup
                     end
        end
      else if char_eqb c "." then POk (RAny, g, s')
      else if char_eqb c "^" || char_eqb c "$" then PUnsup
      else POk (RChar c, g, s')
    end
  end.

(** [re.compile(pattern)]: a trailing [)] is an unbalanced parenthesis. *)
Definition compile (p : string) : presult regex :=
  let s := chars p in
  match p_alt (4 * List.length s + 4) 1 s with
  | POk (r, _, []) => POk r
  | POk _ => PErr
  | PErr => PErr
  | PUnsup => PUnsup
  end.

(* ------------------------------------------------------------------ *)
(** ** The [re] module: matching with [re.IGNORECASE]

    A backtracking matcher in continuation-passing style over the rest of
    the subject string.  Captures map a group number to the text between
    two suffixes of the subject; the most recent capture comes first.  *)

Definition caps := list (nat * (list ascii * list ascii)).

Definition item_match (it : class_item) (c : ascii) : bool :=
  match it with
  | CChar x => char_eqb x c
  | CRange lo hi => Nat.leb (nat_of_ascii lo) (nat_of_ascii c) && Nat.leb (nat_of_ascii c) (nat_of_ascii hi)
  | CDigit => is_digit c
  | CNotDigit => negb (is_digit c)
  | CSpace => is_space c
  | CNotSpace => negb (is_space c)
  | CWord => is_word c
  | CNotWord => negb (is_word c)
  end.

Definition set_match (its : list class_item) (c : ascii) : bool :=
  existsb (fun it => item_match it c || item_match it (lower c) || item_match it (upper c)) its.

Fixpoint nullable (r : regex) : bool :=
  match r with
  | REmpty => true
  | RChar _ | RAny | RSet _ _ => false
  | RSeq r1 r2 => nullable r1 && nullable r2
  | RAlt r1 r2 => nullable r1 || nullable r2
  | RGroup _ r1 => nullable r1
  | RRep r1 lo _ _ => Nat.eqb lo 0 || nullable r1
  end.

Definition below (hi : option nat) (cnt : nat) : bool :=
  match hi with Some h => Nat.ltb cnt h | None => true end.

(** [mt r k s cp]: match [r] at the head of [s], then run the continuation
    [k] on the rest; the first success in [sre]'s order wins.  A repeat
    tries one more iteration before stopping when greedy, the reverse when
    lazy; an iteration past the minimum that matches the empty string ends
    the repeat and goes on with the rest (the zero-width protection of
    [MAX_UNTIL]/[MIN_UNTIL]). *)
Fixpoint mt {A : Type} (r : regex) (k : list ascii -> caps -> option A)
  (s : list ascii) (cp : caps) {struct r} : option A :=
  match r with
  | REmpty => k s cp
  | RChar x => match s with y :: s' => if ci_eq x y then k s' cp else None | [] => None end
  | RAny => match s with
            | y :: s' => if c_is y 10 then None else k s' cp
            | [] => None
            end
  | RSet neg its => match s with
                    | y :: s' => if Bool.eqb (set_match its y) (negb neg) then k s' cp else None
                    | [] => None
                    end
  | RSeq r1 r2 => mt r1 (fun s' cp' => mt r2 k s' cp') s cp
  | RAlt r1 r2 => match mt r1 k s cp with Some v => Some v | None => mt r2 k s cp end
  | RGroup g r1 => mt r1 (fun s' cp' => k s' ((g, (s, s')) :: cp')) s cp
  | RRep r1 lo hi greedy =>
    let fix rep (fuel cnt : nat) (s : list ascii) (cp : caps) {struct fuel} : option A :=
      match fuel with
      | O => None
      | S f =>
        if greedy then
          match (if below hi cnt then
                   mt r1 (fun s' cp' =>
                            if nullable r1 && Nat.leb lo (S cnt) && Nat.eqb (List.length s') (List.length s)
                            then k s' cp' else rep f (S cnt) s' cp') s cp
                 else None) with
          | Some v => Some v
          | None => if Nat.leb lo cnt then k s cp else None
          end
        else
          match (if Nat.leb lo cnt then k s cp else None) with
          | Some v => Some v
          | None =>
            if below hi cnt then
              mt r1 (fun s' cp' =>
                       if nullable r1 && Nat.leb lo (S cnt) && Nat.eqb (List.length s') (List.length s)
                       then k s' cp' else rep f (S cnt) s' cp') s cp
            else None
          end
      end in
    rep (S (lo + List.length s)) 0 s cp
  end.

(** A match: where it starts, where it ends, and its captures. *)
Record match_obj := { m_start : list ascii; m_end : list ascii; m_caps : caps }.

(** [re.search]: the leftmost position where the pattern matches. *)
Fixpoint search (r : regex) (s : list ascii) : option match_obj :=
  match mt r (fun e cp => Some (e, cp)) s [] with
  | Some (e, cp) => Some {| m_start := s; m_end := e; m_caps := cp |}
  | None => match s with [] => None | _ :: s' => search r s' end
  end.

Fixpoint cap_lookup (g : nat) (cp : caps) : option (list ascii * list ascii) :=
  match cp with
  | [] => None
  | (g', v) :: cp' => if Nat.eqb g g' then Some v else cap_lookup g cp'
  end.

(** [match.group(g)]: [None] when the group did not take part. *)
Definition group (m : match_obj) (g : nat) : option (list ascii) :=
  match cap_lookup g (m_caps m) with
  | Some (st, en) => Some (firstn (List.length st - List.length en) st)
  | None => None
  end.

(** Case-insensitive literal prefix, as [RChar] under [IGNORECASE] compares. *)
Fixpoint ci_prefixb (p s : list ascii) : bool :=
  match p, s with
  | [], _ => true
  | c :: p', d :: s' => ci_eq c d && ci_prefixb p' s'
  | _ :: _, [] => false
  end.

(** A run of literal characters in front of [rest], as [sre_parse] leaves it. *)
Definition lit_seq (lit : list ascii) (rest : regex) : regex :=
  fold_right (fun c r => RSeq (RChar c) r) rest lit.

Fixpoint drop_lit (n : nat) (r : regex) : regex :=
  match n, r with
  | S n', RSeq (RChar _) r' => drop_lit n' r'
  | _, _ => r
  end.

(** What follows the first [n] literal characters of a compiled pattern. *)
Definition pattern_rest (p : string) (n : nat) : regex :=
  match compile p with POk r => drop_lit n r | _ => REmpty end.

(* ------------------------------------------------------------------ *)
(** ** [extract_metrics_from_response] *)

(** The tails of the two f-string patterns, after formatting ([{{] is [{]). *)
Definition tail1 : string := "\s*[:\-]?\s*\$?\s*(\d{1,3}(?:,\d{3})*(?:\.\d{2})?)".
Definition tail2 : string := "\s*\(?\$?(\d{1,3}(?:,\d{3})*(?:\.\d{2})?)\)?".

(** [patterns = [rf"{metric}...", rf"{metric}..."]]: the metric name is
    spliced in as it is. *)
Definition patterns (metric : string) : list string := [metric ++ tail1; metric ++ tail2].

(** [re.search(pattern, text, re.IGNORECASE)] *)
Definition re_search (pattern text : string) : res (option match_obj) :=
  match compile pattern with
  | POk r => Ok (search r (chars text))
  | PErr => Exc ReError
  | PUnsup => Unmodelled
  end.

(** [s.replace(",", <empty string>)] *)
Definition remove_commas (l : list ascii) : list ascii :=
  filter (fun c => negb (char_eqb c ",")) l.

(** The inner [for pattern in patterns] loop: the value of the first
    pattern that matches, [None] when neither does. *)
Fixpoint try_patterns (ps : list string) (text : string) : res (option string) :=
  match ps with
  | [] => Ok None
  | p :: ps' =>
    let! m := re_search p text in
    match m with
    | Some mo =>
      match group mo 1 with
      | Some g => Ok (Some (of_chars (remove_commas g)))
      | None => Exc (AttributeError "'NoneType' object has no attribute 'replace'")
      end
    | None => try_patterns ps' text
    end
  end.

(** A dict from metric names to values, in insertion order. *)
Definition metric_table := list (string * string).

Fixpoint dict_set (d : metric_table) (k v : string) : metric_table :=
  match d with
  | [] => [(k, v)]
  | (k', v') :: d' => if String.eqb k k' then (k, v) :: d' else (k', v') :: dict_set d' k v
  end.

(** [{name: "N/A" for name in metric_names}] *)
Definition na_table (names : list string) : metric_table :=
  fold_left (fun d n => dict_set d n "N/A") names [].

(** [for result in response_data['search_results'][:5]:
       if 'text' in result: combined_text += " " + result['text']] *)
Fixpoint combine_texts (rs : list json) (acc : string) : res string :=
  match rs with
  | [] => Ok acc
  | r :: rs' =>
    let! b := py_in "text" r in
    if b then
      let! v := py_getitem r "text" in
      let! t := py_space_plus v in
      combine_texts rs' (acc ++ t)
    else combine_texts rs' acc
  end.

(** The outer [for metric in metric_names] loop. *)
Fixpoint fill_metrics (names : list string) (combined : string) (metrics : metric_table)
  : res metric_table :=
  match names with
  | [] => Ok metrics
  | m :: ns =>
    let! v := try_patterns (patterns m) combined in
    fill_metrics ns combined (match v with Some x => dict_set metrics m x | None => metrics end)
  end.

Definition default_metric_names : list string :=
  ["Revenue"; "Net Profit"; "Gross Profit"; "Total Assets"; "Total Liabilities"].

(** [extract_metrics_from_response(response_data, metric_names=None)];
    [None] for [metric_names] is the default argument. *)
Definition names_or_default (metric_names : option (list string)) : list string :=
  match metric_names with Some l => l | None => default_metric_names end.

Definition extract_metrics_from_response (response_data : json)
  (metric_names : option (list string)) : res metric_table :=
  let names := names_or_default metric_names in
  let metrics := na_table names in
  if truthy response_data then
    let! has := py_in "search_results" response_data in
    if has then
      let! sr := py_getitem response_data "search_results" in
      let! rs := py_slice_prefix 5 sr in
      let! combined_text := combine_texts rs EmptyString in
      fill_metrics names combined_text metrics
    else Ok metrics
  else Ok metrics.

(* ------------------------------------------------------------------ *)
(** ** [VectaraClient]: requests, responses and the session *)

(** [VectaraClient(api_key, customer_id, corpus_id)]; its [base_url] and
    [headers] are functions of these three fields. *)
Record client := mk_client { api_key : string; customer_id : string; corpus_id : string }.

Definition base_url : string := "https://api.vectara.io/v2".

(** The HTTP requests the client issues, one constructor per endpoint. *)
Inductive request : Type :=
| ReqGetCorpus (c : client)                          (* GET  {base_url}/corpora/{corpus_id} *)
| ReqUploadFile (c : client) (filename content : string)
                                                     (* POST {base_url}/corpora/{corpus_id}/upload_file *)
| ReqIndexV1 (c : client) (filename content : string) (* POST https://api.vectara.io/v1/index *)
| ReqQuery (c : client) (query_text : string) (num_results : nat)
                                                     (* POST {base_url}/query *)
| ReqListDocuments (c : client).                     (* GET  {base_url}/corpora/{corpus_id}/documents *)

Definition request_client (r : request) : client :=
  match r with
  | ReqGetCorpus c | ReqUploadFile c _ _ | ReqIndexV1 c _ _
  | ReqQuery c _ _ | ReqListDocuments c => c
  end.

(** The body as [response.json()] sees it: JSON, or text it cannot decode. *)
Inductive body : Type :=
| JsonBody (j : json)
| TextBody (decode_error : string).

Record response := mk_response { status_code : Z; text : string; resp_body : body }.

(** What [requests.get]/[requests.post] does: a response, or an exception
    (connection refused, DNS, TLS, ...) with its message. *)
Inductive outcome : Type :=
| Resp (r : response)
| Raised (msg : string).

(** The remote service, as an oracle. *)
Definition server := request -> outcome.

(** What the page shows ([st.success], [st.error], [status_text.text]). *)
Inductive ui_msg : Type :=
| UiSuccess (s : string)
| UiError (s : string)
| UiStatus (s : string).

Record session := mk_session {
  vectara_client : option client;
  uploaded_files_list : list string;
  chat_history : list (string * json);   (* query and response; the timestamp is not modelled *)
  connected : bool }.

Definition init_session : session := mk_session None [] [] false.

(** The world a script run acts on: [st.session_state], the requests
    issued so far (in order) and the messages shown. *)
Record world := mk_world { ses : session; trace : list request; shown : list ui_msg }.

(** Exception-and-state monad over the world.  Exceptions are Python's;
    [Unmodelled] propagates like one. *)
Definition M (A : Type) := world -> res A * world.

Definition ret {A} (a : A) : M A := fun w => (Ok a, w).

Definition bind {A B} (m : M A) (f : A -> M B) : M B :=
  fun w => match m w with
           | (Ok a, w') => f a w'
           | (Exc e, w') => (Exc e, w')
           | (Unmodelled, w') => (Unmodelled, w')
           end.

Notation "'let*' x := m 'in' f" := (bind m (fun x => f))
  (at level 200, x name, m at level 100, f at level 200).

Definition raise {A} (e : exn) : M A := fun w => (Exc e, w).

Definition lift {A} (r : res A) : M A := fun w => (r, w).

(** [try: m except Exception as e: h(e)] *)
Definition try_except {A} (m : M A) (h : exn -> M A) : M A :=
  fun w => match m w with
           | (Exc Rerun, w') => (Exc Rerun, w')
           | (Exc e, w') => h e w'
           | x => x
           end.

(** Issuing one request: it is recorded, then the server answers or raises. *)
Definition http (srv : server) (rq : request) : M response :=
  fun w => let w' := mk_world (ses w) (trace w ++ [rq])%list (shown w) in
           match srv rq with
           | Resp r => (Ok r, w')
           | Raised m => (Exc (ConnectionError m), w')
           end.

(** [response.json()] *)
Definition resp_json (r : response) : M json :=
  match resp_body r with
  | JsonBody j => ret j
  | TextBody m => raise (JSONDecodeError m)
  end.

Definition show (m : ui_msg) : M unit :=
  fun w => (Ok tt, mk_world (ses w) (trace w) (shown w ++ [m])%list).

Definition get_session : M session := fun w => (Ok (ses w), w).
Definition put_session (s : session) : M unit :=
  fun w => (Ok tt, mk_world s (trace w) (shown w)).

(** [int(s)] on a str: surrounding whitespace, a sign, digits with single
    underscores between them. *)
Fixpoint drop_spaces (l : list ascii) : list ascii :=
  match l with c :: l' => if is_space c then drop_spaces l' else l | [] => [] end.

Fixpoint int_digits (l : list ascii) (prev_digit : bool) (acc : Z) : option Z :=
  match l with
  | [] => if prev_digit then Some acc else None
  | c :: l' =>
    if is_digit c then int_digits l' true (acc * 10 + Z.of_nat (digit_val c))%Z
    else if char_eqb c "_" && prev_digit then int_digits l' false acc
    else None
  end.

Definition parse_int (s : string) : option Z :=
  match rev (drop_spaces (rev (drop_spaces (chars s)))) with
  | c :: l' => if char_eqb c "-" then option_map Z.opp (int_digits l' false 0)
               else if char_eqb c "+" then int_digits l' false 0
               else int_digits (c :: l') false 0
  | [] => None
  end.

Definition py_int (s : string) : M Z :=
  match parse_int s with
  | Some z => ret z
  | None => raise (ValueError ("invalid literal for int() with base 10: '" ++ s ++ "'"))
  end.

(* ------------------------------------------------------------------ *)
(** ** The client's operations *)

Definition is_code (r : response) (n : Z) : bool := Z.eqb (status_code r) n.

(** [VectaraClient.test_connection] *)
Definition test_connection (c : client) (srv : server) : M (bool * string) :=
  try_except
    (let* response := http srv (ReqGetCorpus c) in
     if is_code response 200 then ret (true, "Connection successful!")
     else if is_code response 403 then ret (false, "403 Forbidden - Check your API key and permissions")
     else if is_code response 401 then ret (false, "401 Unauthorized - Invalid API key")
     else if is_code response 404 then ret (false, "404 Not Found - Invalid Corpus ID")
     else ret (false, "Error " ++ Z_to_string (status_code response) ++ ": " ++ text response))
    (fun e => ret (false, "Connection error: " ++ exn_str e)).

(** [VectaraClient.upload_file] (multipart; the metadata's upload date is
    not modelled). *)
Definition upload_file (c : client) (file_content filename : string) (srv : server)
  : M (bool * string) :=
  try_except
    (let* response := http srv (ReqUploadFile c filename file_content) in
     if is_code response 200 || is_code response 201 then
       ret (true, "Successfully uploaded: " ++ filename)
     else if is_code response 403 then
       ret (false, "403 Forbidden - Check corpus permissions for uploads. Response: " ++ text response)
     else if is_code response 401 then
       ret (false, "401 Unauthorized - Invalid API key. Response: " ++ text response)
     else
       ret (false, "Upload failed (" ++ Z_to_string (status_code response) ++ "): " ++ text response))
    (fun e => ret (false, "Error uploading " ++ filename ++ ": " ++ exn_str e)).

(** [VectaraClient.upload_file_v1] (JSON document with the base64 body;
    [int(self.customer_id)] and [int(self.corpus_id)] are evaluated while
    building the payload, before the request). *)
Definition upload_file_v1 (c : client) (file_content filename : string) (srv : server)
  : M (bool * string) :=
  try_except
    (let* _cust := py_int (customer_id c) in
     let* _corp := py_int (corpus_id c) in
     let* response := http srv (ReqIndexV1 c filename file_content) in
     if is_code response 200 || is_code response 201 then
       ret (true, "Successfully uploaded: " ++ filename)
     else if is_code response 403 then
       ret (false, "403 Error - Your API key doesn't have INDEX permission. Check API key settings in Vectara Console.")
     else
       ret (false, "Upload failed (" ++ Z_to_string (status_code response) ++ "): " ++ text response))
    (fun e => ret (false, "Error uploading " ++ filename ++ ": " ++ exn_str e)).

(** [VectaraClient.query]: Python's [None] is [JNull] on the result side. *)
Definition query (c : client) (query_text : string) (num_results : nat) (srv : server)
  : M (json * option string) :=
  try_except
    (let* response := http srv (ReqQuery c query_text num_results) in
     if is_code response 200 then
       let* j := resp_json response in ret (j, None)
     else if is_code response 403 then
       ret (JNull, Some ("403 Forbidden - Check query permissions: " ++ text response))
     else
       ret (JNull, Some ("Query failed (" ++ Z_to_string (status_code response) ++ "): " ++ text response)))
    (fun e => ret (JNull, Some ("Error querying: " ++ exn_str e))).

(** [VectaraClient.list_documents] *)
Definition list_documents (c : client) (srv : server) : M (json * option string) :=
  try_except
    (let* response := http srv (ReqListDocuments c) in
     if is_code response 200 then
       let* j := resp_json response in ret (j, None)
     else
       ret (JNull, Some ("Failed to list documents (" ++ Z_to_string (status_code response) ++ "): " ++ text response)))
    (fun e => ret (JNull, Some ("Error listing documents: " ++ exn_str e))).

(** [VectaraClient.check_permissions] and the dict it returns. *)
Inductive perm_report : Type :=
| Perms (can_read can_view_corpus : bool) (read_error : option string)
| PermsError (msg : string).

Definition check_permissions (c : client) (srv : server) : M perm_report :=
  try_except
    (let* read_test := list_documents c srv in
     let can_read := match snd read_test with None => true | Some _ => false end in
     let* response := http srv (ReqGetCorpus c) in
     ret (Perms can_read (is_code response 200) (if can_read then None else snd read_test)))
    (fun e => ret (PermsError (exn_str e))).

(** [initialize_vectara] *)
Definition initialize_vectara (k cu co : string) (srv : server)
  : M (option client * option string) :=
  try_except
    (let c := mk_client k cu co in
     let* r := test_connection c srv in
     if fst r then ret (Some c, None) else ret (None, Some (snd r)))
    (fun e => ret (None, Some (exn_str e))).

(* ------------------------------------------------------------------ *)
(** ** The Streamlit script

    Each interaction reruns the whole script; at most one button is
    pressed in a run.  [st.rerun()] stops the run.  Only the upload tab's
    messages are recorded in [shown]; other output changes no state. *)

Inductive upload_method := V2Api | V1Api.

(** The values of the input widgets during a run. *)
Record widgets := mk_widgets {
  w_api_key : string; w_customer_id : string; w_corpus_id : string;
  w_upload_method : upload_method;
  w_files : list (string * string);          (* file name and content *)
  w_query : string;
  w_custom_metrics : string }.

Inductive button :=
| NoButton | TestPermsButton | ConnectButton | ViewDocsButton | DisconnectButton
| UploadButton | SearchButton | ClearHistoryButton | ComparisonButton.

Definition button_eqb (a b : button) : bool :=
  match a, b with
  | NoButton, NoButton | TestPermsButton, TestPermsButton | ConnectButton, ConnectButton
  | ViewDocsButton, ViewDocsButton | DisconnectButton, DisconnectButton
  | UploadButton, UploadButton | SearchButton, SearchButton
  | ClearHistoryButton, ClearHistoryButton | ComparisonButton, ComparisonButton => true
  | _, _ => false
  end.

Definition nonempty (s : string) : bool := negb (String.eqb s EmptyString).

Definition set_client (s : session) (c : option client) (b : bool) : session :=
  mk_session c (uploaded_files_list s) (chat_history s) b.

(** The sidebar: permission checker, connect form, status and documents. *)
Definition sidebar (srv : server) (wd : widgets) (b : button) : M unit :=
  let* s := get_session in
  let* _ := match connected s, vectara_client s with
            | true, Some c =>
              if button_eqb b TestPermsButton then
                let* _ := check_permissions c srv in ret tt
              else ret tt
            | _, _ => ret tt
            end in
  let* _ := if button_eqb b ConnectButton then
              if nonempty (w_api_key wd) && nonempty (w_customer_id wd) && nonempty (w_corpus_id wd) then
                let* r := initialize_vectara (w_api_key wd) (w_customer_id wd) (w_corpus_id wd) srv in
                match fst r with
                | Some c =>
                  let* s := get_session in
                  let* _ := put_session (set_client s (Some c) true) in
                  raise Rerun
                | None => ret tt
                end
              else ret tt
            else ret tt in
  let* s := get_session in
  match connected s, vectara_client s with
  | true, Some c =>
    let* _ := if button_eqb b ViewDocsButton then
                let* _ := list_documents c srv in ret tt
              else ret tt in
    if button_eqb b DisconnectButton then
      let* s := get_session in
      let* _ := put_session (set_client s None false) in
      raise Rerun
    else ret tt
  | _, _ => ret tt
  end.

(** [if file.name not in st.session_state.uploaded_files_list: append] *)
Definition remember_upload (name : string) : M unit :=
  let* s := get_session in
  if existsb (String.eqb name) (uploaded_files_list s) then ret tt
  else put_session (mk_session (vectara_client s) (uploaded_files_list s ++ [name])%list
                               (chat_history s) (connected s)).

Definition upload_one (m : upload_method) (c : client) (content name : string) (srv : server)
  : M (bool * string) :=
  match m with
  | V1Api => upload_file_v1 c content name srv
  | V2Api => upload_file c content name srv
  end.

(** The body of [for i, file in enumerate(uploaded_files)], from the given
    [success_count]; returns the final count. *)
Fixpoint upload_loop (m : upload_method) (client : option client) (files : list (string * string))
  (srv : server) (success_count : nat) : M nat :=
  match files with
  | [] => ret success_count
  | (name, content) :: fs =>
    let* _ := show (UiStatus ("Uploading " ++ name ++ "...")) in
    match client with
    | None => raise (AttributeError "'NoneType' object has no attribute 'upload_file'")
    | Some c =>
      let* r := upload_one m c content name srv in
      let* n := if fst r then
                  let* _ := show (UiSuccess (snd r)) in
                  let* _ := remember_upload name in
                  ret (S success_count)
                else
                  let* _ := show (UiError (snd r)) in
                  ret success_count in
      upload_loop m client fs srv n
    end
  end.

Definition upload_report (success_count total_files : nat) : string :=
  "Upload complete! " ++ nat_to_string success_count ++ "/" ++ nat_to_string total_files
  ++ " files uploaded successfully.".

(** Tab 1: the batch upload. *)
Definition tab_upload (srv : server) (wd : widgets) (b : button) : M unit :=
  let* s := get_session in
  if connected s then
    match w_files wd with
    | [] => ret tt
    | files =>
      if button_eqb b UploadButton then
        let* n := upload_loop (w_upload_method wd) (vectara_client s) files srv 0 in
        show (UiStatus (upload_report n (List.length files)))
      else ret tt
    end
  else ret tt.

(** Displaying one stored response in the conversation history: the
    operations that can raise on a response of an unexpected shape. *)
Definition json_get (v : json) (key : string) (default : json) : res json :=
  match v with
  | JObj d => Ok (match dict_get d key with Some x => x | None => default end)
  | _ => Exc (AttributeError ("'" ++ type_name v ++ "' object has no attribute 'get'"))
  end.

Definition show_source (result : json) : res unit :=
  let! score := json_get result "score" (JNum 0) in
  let! txt := json_get result "text" (JStr "N/A") in
  let! _ := match score with                       (* f"{score:.3f}" *)
            | JNum _ | JBool _ => Ok tt
            | JStr _ => Exc (ValueError "Unknown format code 'f' for object of type 'str'")
            | _ => Exc (TypeError ("unsupported format string passed to " ++ type_name score ++ ".__format__"))
            end in
  match txt with                                   (* text[:300] + "..." if len(text) > 300 else text *)
  | JStr _ => Ok tt
  | JArr l => if Nat.ltb 300 (List.length l) then Exc (TypeError ("can only concatenate list (not " ++ dq ++ "str" ++ dq ++ ") to list")) else Ok tt
  | JObj d => if Nat.ltb 300 (List.length d) then Exc (TypeError "unhashable type: 'slice'") else Ok tt
  | _ => Exc (TypeError ("object of type '" ++ type_name txt ++ "' has no len()"))
  end.

Fixpoint show_sources (rs : list json) : res unit :=
  match rs with
  | [] => Ok tt
  | r :: rs' => let! _ := show_source r in show_sources rs'
  end.

Definition show_chat (response : json) : res unit :=
  let! has_summary := py_in "summary" response in
  let! _ := if has_summary then let! _ := py_getitem response "summary" in Ok tt else Ok tt in
  let! has_results := py_in "search_results" response in
  if has_results then
    let! sr := py_getitem response "search_results" in
    let! rs := py_slice_prefix 3 sr in
    show_sources rs
  else Ok tt.

Fixpoint show_history (h : list (string * json)) : res unit :=
  match h with
  | [] => Ok tt
  | (_, r) :: h' => let! _ := show_chat r in show_history h'
  end.

(** Tab 2: questions and the conversation history. *)
Definition tab_query (srv : server) (wd : widgets) (b : button) : M unit :=
  let* s := get_session in
  if connected s then
    let* _ := if button_eqb b ClearHistoryButton then
                let* _ := put_session (mk_session (vectara_client s) (uploaded_files_list s) [] (connected s)) in
                raise Rerun
              else ret tt in
    let* _ := if button_eqb b SearchButton && nonempty (w_query wd) then
                match vectara_client s with
                | None => raise (AttributeError "'NoneType' object has no attribute 'query'")
                | Some c =>
                  let* r := query c (w_query wd) 10 srv in
                  match snd r with
                  | Some _ => ret tt
                  | None =>
                    let* s := get_session in
                    let* _ := put_session (mk_session (vectara_client s) (uploaded_files_list s)
                                             (chat_history s ++ [(w_query wd, fst r)])%list (connected s)) in
                    raise Rerun
                  end
                end
              else ret tt in
    let* s := get_session in
    lift (show_history (rev (chat_history s)))
  else ret tt.

(** [str.split(',')] and [str.strip()] *)
Fixpoint split_commas (l : list ascii) (cur : list ascii) : list (list ascii) :=
  match l with
  | [] => [cur]
  | c :: l' => if char_eqb c "," then cur :: split_commas l' [] else split_commas l' (cur ++ [c])%list
  end.

Definition strip (l : list ascii) : list ascii := rev (drop_spaces (rev (drop_spaces l))).

Definition comparison_metrics (custom_metrics : string) : list string :=
  (["Revenue"; "Net Profit"; "Gross Profit"; "Total Assets"]
   ++ (if nonempty custom_metrics
       then map (fun m => of_chars (strip m)) (split_commas (chars custom_metrics) [])
       else []))%list.

(** Tab 3: the comparison; the table and chart built from [metrics] are
    not modelled. *)
Definition tab_compare (srv : server) (wd : widgets) (b : button) : M unit :=
  let* s := get_session in
  if connected s then
    let all_metrics := comparison_metrics (w_custom_metrics wd) in
    if button_eqb b ComparisonButton then
      match vectara_client s with
      | None => raise (AttributeError "'NoneType' object has no attribute 'query'")
      | Some c =>
        let query_text := "financial statements showing: " ++ String.concat ", " all_metrics in
        let* r := query c query_text 10 srv in
        match snd r with
        | None =>
          if truthy (fst r) then
            let* _metrics := lift (extract_metrics_from_response (fst r) (Some all_metrics)) in
            ret tt
          else ret tt
        | Some _ => ret tt
        end
      end
    else ret tt
  else ret tt.

(** One run of the script. *)
Definition run_script (srv : server) (wd : widgets) (b : button) : M unit :=
  let* _ := sidebar srv wd b in
  let* _ := tab_upload srv wd b in
  let* _ := tab_query srv wd b in
  tab_compare srv wd b.

(** The session after a run and the requests the run issued. *)
Definition step (srv : server) (wd : widgets) (b : button) (s : session) : session * list request :=
  let w := snd (run_script srv wd b (mk_world s [] [])) in (ses w, trace w).

(* ================================================================== *)
(** * Properties *)

(* ------------------------------------------------------------------ *)
(** ** Strings *)

Lemma chars_app (a b : string) : chars (a ++ b) = (chars a ++ chars b)%list.
Proof. induction a as [|x a IH]; simpl; [reflexivity | now rewrite IH]. Qed.

Lemma char_eqb_refl (c : ascii) : char_eqb c c = true.
Proof. apply Ascii.eqb_refl. Qed.

Lemma prefixb_app (p t : list ascii) : prefixb p (p ++ t) = true.
Proof. induction p as [|x p IH]; simpl; [reflexivity | now rewrite char_eqb_refl, IH]. Qed.

Lemma prefixb_app_l (n a b : list ascii) : prefixb n a = true -> prefixb n (a ++ b) = true.
Proof.
  revert a; induction n as [|y n IH]; intros a H; [reflexivity|].
  destruct a as [|x a]; [discriminate|]. simpl in *.
  apply andb_true_iff in H as [H1 H2]. rewrite H1. now apply IH.
Qed.

Lemma occursb_app_l (n a b : list ascii) : occursb n a = true -> occursb n (a ++ b) = true.
Proof.
  induction a as [|x a IH]; intro H.
  - destruct n; [destruct b; reflexivity | discriminate].
  - simpl in H |- *. apply orb_true_iff in H as [H | H].
    + apply orb_true_iff; left. now apply (prefixb_app_l _ (x :: a)).
    + apply orb_true_iff; right. now apply IH.
Qed.

Lemma occursb_app_r (n a b : list ascii) : occursb n b = true -> occursb n (a ++ b) = true.
Proof.
  induction a as [|x a IH]; simpl; intro H; [exact H|].
  apply orb_true_iff; right. now apply IH.
Qed.

Lemma str_contains_app_l (n a b : string) : str_contains n a = true -> str_contains n (a ++ b) = true.
Proof. unfold str_contains. rewrite chars_app. apply occursb_app_l. Qed.

Lemma str_contains_app_r (n a b : string) : str_contains n b = true -> str_contains n (a ++ b) = true.
Proof. unfold str_contains. rewrite chars_app. apply occursb_app_r. Qed.

Lemma str_contains_self (n : string) : str_contains n n = true.
Proof.
  unfold str_contains. destruct (chars n) as [|x l] eqn:E; simpl; [reflexivity|].
  rewrite char_eqb_refl. rewrite <- (app_nil_r l) at 2. now rewrite prefixb_app.
Qed.

(* ------------------------------------------------------------------ *)
(** ** The client's operations return their pair *)

(** Running an operation: its result, whatever the world. *)
Definition result_of {A} (m : M A) (w : world) : res A := fst (m w).

Lemma py_int_cases (s : string) (w : world) :
  (exists z, py_int s w = (Ok z, w)) \/ (exists m, py_int s w = (Exc (ValueError m), w)).
Proof.
  unfold py_int, ret, raise.
  destruct (parse_int s); eauto.
Qed.

Ltac crush_ops srv :=
  repeat (match goal with
          | |- context [srv ?r] => destruct (srv r) as [[? ? [?|?]]|?]
          | |- context [Z.eqb ?a ?b] => destruct (Z.eqb a b)
          | |- context [py_int ?s ?w] => destruct (py_int_cases s w) as [[? ->]|[? ->]]
          end; simpl);
  eauto.

(** C8: [test_connection] never raises, whatever the remote service does
    (any status, any body, or an exception from [requests]): it returns an
    [(ok, message)] pair; and the other remote-facing operations also return
    their pair (or, for [check_permissions], their report) instead of
    raising. *)
Theorem remote_ops_never_raise :
  forall (c : client) (srv : server) (w : world) (content name q : string) (n : nat),
    (exists ok msg, result_of (test_connection c srv) w = Ok (ok, msg)) /\
    (exists ok msg, result_of (upload_file c content name srv) w = Ok (ok, msg)) /\
    (exists ok msg, result_of (upload_file_v1 c content name srv) w = Ok (ok, msg)) /\
    (exists r err, result_of (query c q n srv) w = Ok (r, err)) /\
    (exists r err, result_of (list_documents c srv) w = Ok (r, err)) /\
    (exists rep, result_of (check_permissions c srv) w = Ok rep) /\
    (exists cl err, result_of (initialize_vectara (api_key c) (customer_id c) (corpus_id c) srv) w
                    = Ok (cl, err)).
Proof.
  intros c srv w content name q n.
  unfold result_of, check_permissions, initialize_vectara, test_connection, upload_file,
    upload_file_v1, query, list_documents, try_except, bind, http, ret, raise, resp_json,
    is_code.
  repeat split; simpl; crush_ops srv.
Qed.

(* ------------------------------------------------------------------ *)
(** ** [query]'s result/error pair *)

(** "Exactly one of result and error is non-null" ([JNull] is [None]). *)
Definition exactly_one_nonnull (r : res (json * option string)) : Prop :=
  match r with
  | Ok (j, e) => (j <> JNull /\ e = None) \/ (j = JNull /\ e <> None)
  | _ => False
  end.

Definition demo_client : client := mk_client "zut_demo" "1234567" "hello_world".
Definition empty_world : world := mk_world init_session [] [].

(** A service answering HTTP 200 with the JSON body [null]. *)
Definition srv_null_body : server := fun _ => Resp (mk_response 200 "null" (JsonBody JNull)).

(** C6 (counterexample): on HTTP 200 with the JSON body [null], [query]
    returns [(None, None)]: neither result nor error is non-null. *)
Lemma query_null_body_both_null :
  result_of (query demo_client "What is the total revenue in FY2024?" 10 srv_null_body) empty_world
    = Ok (JNull, None) /\
  ~ exactly_one_nonnull
      (result_of (query demo_client "What is the total revenue in FY2024?" 10 srv_null_body) empty_world).
Proof.
  split; [reflexivity|].
  vm_compute. intros [[H _] | [_ H]]; apply H; reflexivity.
Qed.

(** C6 (amended): [query] always returns a pair.  On HTTP 200 with a JSON
    body the result is the decoded body and the error is null (so a JSON
    [null] body gives two nulls); on any other status, on a 200 body that is
    not JSON, or when the request raises, the result is null and the error
    is a non-null string. *)
Theorem query_result_error_pair :
  forall (c : client) (q : string) (n : nat) (srv : server) (w : world),
  exists j e, result_of (query c q n srv) w = Ok (j, e) /\
    match srv (ReqQuery c q n) with
    | Resp r =>
      match resp_body r with
      | JsonBody b => if is_code r 200 then j = b /\ e = None
                      else j = JNull /\ exists msg, e = Some msg
      | TextBody _ => j = JNull /\ exists msg, e = Some msg
      end
    | Raised _ => j = JNull /\ exists msg, e = Some msg
    end.
Proof.
  intros c q n srv w.
  unfold result_of, query, try_except, bind, http, ret, raise, resp_json, is_code; simpl.
  destruct (srv (ReqQuery c q n)) as [[code txt [b | m]] | m]; simpl;
    [destruct (Z.eqb code 200) | destruct (Z.eqb code 200) |]; simpl;
    try destruct (Z.eqb code 403); simpl; eauto 7.
Qed.

(* ------------------------------------------------------------------ *)
(** ** Status classification of the remote operations *)

Inductive remote_op := OpTestConnection | OpUploadMultipart | OpUploadDocumentV1 | OpQuery | OpListDocuments.

(** The request each operation issues. *)
Definition op_request (o : remote_op) (c : client) (name content q : string) : request :=
  match o with
  | OpTestConnection => ReqGetCorpus c
  | OpUploadMultipart => ReqUploadFile c name content
  | OpUploadDocumentV1 => ReqIndexV1 c name content
  | OpQuery => ReqQuery c q 10
  | OpListDocuments => ReqListDocuments c
  end.

(** Each operation's outcome as [(ok, message)]: for [query] and
    [list_documents], [ok] is "error is None" and the message the error. *)
Definition op_outcome (o : remote_op) (c : client) (name content q : string) (srv : server)
  : M (bool * string) :=
  let of_pair (r : json * option string) :=
    match snd r with Some m => (false, m) | None => (true, EmptyString) end in
  match o with
  | OpTestConnection => test_connection c srv
  | OpUploadMultipart => upload_file c content name srv
  | OpUploadDocumentV1 => upload_file_v1 c content name srv
  | OpQuery => let* r := query c q 10 srv in ret (of_pair r)
  | OpListDocuments => let* r := list_documents c srv in ret (of_pair r)
  end.

Definition non2xx (code : Z) : bool := Z.ltb code 200 || Z.leb 300 code.

(** The message names the category of a 401, 403 or 404. *)
Definition category_named (code : Z) (msg : string) : bool :=
  if Z.eqb code 401 then str_contains "Unauthorized" msg
  else if Z.eqb code 403 then str_contains "Forbidden" msg || str_contains "permission" msg
  else if Z.eqb code 404 then str_contains "Not Found" msg
  else true.

(** The statuses each operation classifies. *)
Definition classified (o : remote_op) (code : Z) : bool :=
  match o with
  | OpTestConnection => Z.eqb code 401 || Z.eqb code 403 || Z.eqb code 404
  | OpUploadMultipart => Z.eqb code 401 || Z.eqb code 403
  | OpUploadDocumentV1 | OpQuery => Z.eqb code 403
  | OpListDocuments => false
  end.

Definition srv_status (code : Z) (txt : string) : server :=
  fun _ => Resp (mk_response code txt (TextBody "Expecting value: line 1 column 1 (char 0)")).

Lemma str_app_assoc (a b c : string) : (a ++ b ++ c) = ((a ++ b) ++ c).
Proof. induction a as [|x a IH]; simpl; [reflexivity | now rewrite IH]. Qed.

(** C1 (counterexample): [list_documents] answers a 401 with
    "Failed to list documents (401): ...", and the multipart upload answers a
    404 with "Upload failed (404): ...": neither names the category. *)
Lemma unclassified_401_404 :
  result_of (op_outcome OpListDocuments demo_client "q1.pdf" "%PDF" "q" (srv_status 401 EmptyString)) empty_world
    = Ok (false, "Failed to list documents (401): ") /\
  category_named 401 "Failed to list documents (401): " = false /\
  result_of (op_outcome OpUploadMultipart demo_client "q1.pdf" "%PDF" "q" (srv_status 404 EmptyString)) empty_world
    = Ok (false, "Upload failed (404): ") /\
  category_named 404 "Upload failed (404): " = false.
Proof. vm_compute. repeat split. Qed.

Lemma mid_contains (a z b : string) : str_contains z (a ++ z ++ b) = true.
Proof. apply str_contains_app_r, str_contains_app_l, str_contains_self. Qed.

(** C1 (amended): for every status outside 2xx, every operation fails
    ([ok = false], or a non-null error).  [test_connection] classifies 401,
    403 and 404; the multipart upload 401 and 403; the v1 upload (when both
    ids parse as integers) and [query] only 403; [list_documents] none.  A
    classified status gets a message naming its category (unauthorized,
    forbidden or permission, not found); every other status gets a message
    made of a prefix naming the status code followed by the raw response
    text. *)
Theorem op_status_classification :
  forall (o : remote_op) (c : client) (name content q : string) (srv : server) (w : world)
         (r : response),
    srv (op_request o c name content q) = Resp r ->
    non2xx (status_code r) = true ->
    (o = OpUploadDocumentV1 -> parse_int (customer_id c) <> None /\ parse_int (corpus_id c) <> None) ->
    exists msg, result_of (op_outcome o c name content q srv) w = Ok (false, msg) /\
      (if classified o (status_code r) then category_named (status_code r) msg = true
       else exists p, msg = p ++ text r /\ str_contains (Z_to_string (status_code r)) p = true).
Proof.
  intros o c name content q srv w [code txt bdy] Hsrv H2xx Hv1; simpl in *.
  assert (E200 : Z.eqb code 200 = false) by (apply Z.eqb_neq; intro; subst; discriminate).
  assert (E201 : Z.eqb code 201 = false) by (apply Z.eqb_neq; intro; subst; discriminate).
  destruct o; unfold result_of, op_outcome, test_connection, upload_file, upload_file_v1,
    query, list_documents, try_except, bind, http, ret, raise, resp_json, is_code in *;
    simpl in *.
  3: destruct (Hv1 eq_refl) as [Hcu Hco]; unfold py_int, ret, raise;
     destruct (parse_int (customer_id c)); [|congruence];
     destruct (parse_int (corpus_id c)); [|congruence]; simpl.
  all: rewrite Hsrv; simpl; rewrite ?E200, ?E201; simpl.
  all: repeat match goal with
              | |- context [Z.eqb ?x ?n] => is_var x; destruct (Z.eqb_spec x n); [subst x|]
              end.
  all: eexists; split; [reflexivity|]; cbn -[String.append Z_to_string str_contains].
  all: try reflexivity.
  all: try (exists ("Error " ++ Z_to_string code ++ ": "); split;
            [now rewrite <- !str_app_assoc | apply mid_contains]).
  all: try (exists ("Upload failed (" ++ Z_to_string code ++ "): "); split;
            [now rewrite <- !str_app_assoc | apply mid_contains]).
  all: try (exists ("Query failed (" ++ Z_to_string code ++ "): "); split;
            [now rewrite <- !str_app_assoc | apply mid_contains]).
  all: try (exists ("Failed to list documents (" ++ Z_to_string code ++ "): "); split;
            [now rewrite <- !str_app_assoc | apply mid_contains]).
Qed.

(* ------------------------------------------------------------------ *)
(** ** The extractor: no hidden state, the first five snippets *)

(** C9: [extract_metrics_from_response] is stateless: run as a step of the
    script, its result does not depend on the world it runs in (so two
    calls on the same response and names give the same mapping, or raise
    the same exception), and it leaves the world unchanged. *)
Theorem extract_stateless :
  forall (response_data : json) (names : option (list string)) (w1 w2 : world),
    result_of (lift (extract_metrics_from_response response_data names)) w1
    = result_of (lift (extract_metrics_from_response response_data names)) w2 /\
    snd (lift (extract_metrics_from_response response_data names) w1) = w1.
Proof. intros; split; reflexivity. Qed.

Lemma dict_nonempty (d : list (string * json)) (k : string) (v : json) :
  dict_get d k = Some v -> truthy (JObj d) = true.
Proof. destruct d; [discriminate | reflexivity]. Qed.

(** The buffer [" " + t1 + " " + t2 + ...]. *)
Definition buffer_of (ts : list string) : string :=
  fold_left (fun acc t => acc ++ (" " ++ t)) ts EmptyString.

Lemma combine_texts_dicts :
  forall (ds : list (list (string * json))) (ts : list string) (acc : string),
    Forall2 (fun d t => dict_get d "text" = Some (JStr t)) ds ts ->
    combine_texts (map JObj ds) acc = Ok (fold_left (fun acc t => acc ++ (" " ++ t)) ts acc).
Proof.
  intros ds ts acc H; revert acc; induction H as [|d t ds ts Hd _ IH]; intro acc; [reflexivity|].
  cbn [map combine_texts py_in res_bind]. rewrite Hd. cbn [py_getitem res_bind]. rewrite Hd.
  cbn [py_space_plus res_bind]. apply IH.
Qed.

Lemma Forall2_firstn {A B} (R : A -> B -> Prop) (k : nat) (xs : list A) (ys : list B) :
  Forall2 R xs ys -> Forall2 R (firstn k xs) (firstn k ys).
Proof.
  intro H; revert k; induction H as [|x y xs ys Hxy _ IH]; intros [|k]; simpl;
    constructor; auto.
Qed.

Lemma extract_on_snippets :
  forall (d : list (string * json)) (l : list json) (names : option (list string)),
    dict_get d "search_results" = Some (JArr l) ->
    extract_metrics_from_response (JObj d) names
    = let! combined_text := combine_texts (firstn 5 l) EmptyString in
      fill_metrics (names_or_default names) combined_text (na_table (names_or_default names)).
Proof.
  intros d l names H. unfold extract_metrics_from_response.
  rewrite (dict_nonempty _ _ _ H). cbn [py_in py_getitem res_bind]. rewrite H.
  cbn [res_bind py_slice_prefix]. reflexivity.
Qed.

(** C5: the search buffer is built from the first five snippets only, in
    the order received: two responses whose [search_results] lists agree on
    their first five entries give the same outcome (whatever the sixth
    entry on), and when the snippets are dicts with text [t1, t2, ...] the
    buffer is [" " + t1 + ... + " " + t5]. *)
Theorem extract_first_five_snippets :
  forall (d1 d2 : list (string * json)) (l1 l2 : list json) (names : option (list string)),
    dict_get d1 "search_results" = Some (JArr l1) ->
    dict_get d2 "search_results" = Some (JArr l2) ->
    firstn 5 l1 = firstn 5 l2 ->
    extract_metrics_from_response (JObj d1) names = extract_metrics_from_response (JObj d2) names /\
    (forall (ds : list (list (string * json))) (ts : list string),
       l1 = map JObj ds ->
       Forall2 (fun d t => dict_get d "text" = Some (JStr t)) ds ts ->
       extract_metrics_from_response (JObj d1) names
       = fill_metrics (names_or_default names) (buffer_of (firstn 5 ts))
                      (na_table (names_or_default names))).
Proof.
  intros d1 d2 l1 l2 names H1 H2 H5. split.
  - rewrite (extract_on_snippets _ _ _ H1), (extract_on_snippets _ _ _ H2), H5. reflexivity.
  - intros ds ts -> Hf. rewrite (extract_on_snippets _ _ _ H1).
    rewrite firstn_map, (combine_texts_dicts (firstn 5 ds) (firstn 5 ts)).
    + reflexivity.
    + apply Forall2_firstn; exact Hf.
Qed.

(* ------------------------------------------------------------------ *)
(** ** Instances *)

Definition snippet (t : string) : json := JObj [("text", JStr t)].

Definition response_of (l : list json) : list (string * json) := [("search_results", JArr l)].

Definition seven_texts : list string :=
  ["Revenue: $1,000"; "a"; "b"; "c"; "d"; "Revenue: $9,999"; "Net profit: $7"].

Definition seven_texts' : list string :=
  ["Revenue: $1,000"; "a"; "b"; "c"; "d"; "Net profit: $2,500"; "Revenue: $3"].

Definition numeric_client : client := mk_client "zqt_key" "1234567" "42".

(** A 403 from the v1 upload with parseable ids. *)
Lemma op_status_classification_witness :
  srv_status 403 "denied" (op_request OpUploadDocumentV1 numeric_client "a.pdf" "x" "q")
    = Resp (mk_response 403 "denied" (TextBody "Expecting value: line 1 column 1 (char 0)")) /\
  non2xx 403 = true /\
  exists msg,
    result_of (op_outcome OpUploadDocumentV1 numeric_client "a.pdf" "x" "q" (srv_status 403 "denied"))
      empty_world = Ok (false, msg) /\
    (if classified OpUploadDocumentV1 403 then category_named 403 msg = true
     else exists p, msg = p ++ "denied" /\ str_contains (Z_to_string 403) p = true).
Proof.
  split; [reflexivity|]. split; [reflexivity|].
  apply (op_status_classification OpUploadDocumentV1 numeric_client "a.pdf" "x" "q"
           (srv_status 403 "denied") empty_world
           (mk_response 403 "denied" (TextBody "Expecting value: line 1 column 1 (char 0)"))).
  - reflexivity.
  - reflexivity.
  - intros _; split; intro H; vm_compute in H; discriminate H.
Defined.

(** Seven snippets, the last two differing: same outcome. *)
Lemma extract_first_five_snippets_witness :
  firstn 5 (map snippet seven_texts) = firstn 5 (map snippet seven_texts') /\
  extract_metrics_from_response (JObj (response_of (map snippet seven_texts))) None
  = extract_metrics_from_response (JObj (response_of (map snippet seven_texts'))) None.
Proof.
  split; [reflexivity|].
  apply (proj1 (extract_first_five_snippets (response_of (map snippet seven_texts))
                  (response_of (map snippet seven_texts')) (map snippet seven_texts)
                  (map snippet seven_texts') None eq_refl eq_refl eq_refl)).
Defined.

(* ------------------------------------------------------------------ *)
(** ** The round trip of a labelled value *)

Lemma mt_lit_seq {A : Type} (lit : list ascii) (rest : regex)
  (k : list ascii -> caps -> option A) (s : list ascii) (cp : caps) :
  mt (lit_seq lit rest) k s cp
  = if ci_prefixb lit s then mt rest k (skipn (List.length lit) s) cp else None.
Proof.
  revert s k; induction lit as [|c lit IH]; intros s k; [reflexivity|].
  destruct s as [|d s]; simpl; [reflexivity|].
  destruct (ci_eq c d); simpl; [apply IH | reflexivity].
Qed.

Lemma search_unfold (r : regex) (s : list ascii) :
  search r s =
  match mt r (fun e cp => Some (e, cp)) s [] with
  | Some (e, cp) => Some {| m_start := s; m_end := e; m_caps := cp |}
  | None => match s with [] => None | _ :: s' => search r s' end
  end.
Proof. destruct s; reflexivity. Qed.

(** No match starts inside [pre]: the search moves past it. *)
Lemma search_skip (r : regex) (pre s : list ascii) :
  (forall i, i < List.length pre ->
     mt r (fun e cp => Some (e, cp)) (skipn i (pre ++ s)%list) [] = None) ->
  search r (pre ++ s)%list = search r s.
Proof.
  induction pre as [|c pre IH]; intro H; [reflexivity|].
  cbn [search app]. specialize (H 0 ltac:(simpl; lia)) as H0. simpl skipn in H0. rewrite H0.
  apply IH. intros i Hi. apply (H (S i)). simpl; lia.
Qed.

Lemma compile_revenue1 :
  compile ("Revenue" ++ tail1)
  = POk (lit_seq (chars "Revenue") (pattern_rest ("Revenue" ++ tail1) 7)).
Proof. vm_compute. reflexivity. Qed.

(** After the label, the first pattern takes [1,234.56] into group 1,
    whatever follows. *)
Lemma revenue1_after_label (post : list ascii) :
  mt (pattern_rest ("Revenue" ++ tail1) 7) (fun e cp => Some (e, cp))
     (chars ": $1,234.56" ++ post)%list []
  = Some (post, [(1, ((chars "1,234.56" ++ post)%list, post))]).
Proof. vm_compute pattern_rest. simpl. reflexivity. Qed.

Lemma try_revenue (pre post : string) :
  (forall i, i < List.length (chars pre) ->
     ci_prefixb (chars "Revenue") (skipn i (chars (pre ++ "Revenue: $1,234.56" ++ post))) = false) ->
  try_patterns (patterns "Revenue") (pre ++ "Revenue: $1,234.56" ++ post) = Ok (Some "1234.56").
Proof.
  intro H. unfold patterns. cbn [try_patterns]. unfold re_search at 1. rewrite compile_revenue1.
  cbn [res_bind]. rewrite !chars_app in *. rewrite search_skip.
  - rewrite search_unfold, mt_lit_seq. simpl ci_prefixb. cbn iota.
    replace (skipn (List.length (chars "Revenue")) (chars "Revenue: $1,234.56" ++ chars post)%list)
      with (chars ": $1,234.56" ++ chars post)%list by reflexivity.
    rewrite revenue1_after_label. cbn -[chars List.length Nat.sub].
    simpl List.length.
    replace (S (S (S (S (S (S (S (S (List.length (chars post))))))))) - List.length (chars post))
      with 8 by lia.
    reflexivity.
  - intros i Hi. rewrite mt_lit_seq, H by exact Hi. reflexivity.
Qed.

(** C3 (counterexample): the buffer of the one snippet
    "Revenue: $5 Revenue: $1,234.56" contains "Revenue: $1,234.56", yet
    the search finds the earlier label first and the value is "5". *)
Lemma revenue_earlier_label :
  str_contains "Revenue: $1,234.56" (buffer_of ["Revenue: $5 Revenue: $1,234.56"]) = true /\
  extract_metrics_from_response (JObj (response_of [snippet "Revenue: $5 Revenue: $1,234.56"]))
    (Some ["Revenue"]) = Ok [("Revenue", "5")].
Proof. split; vm_compute; reflexivity. Qed.

(** C3 (amended): when the first-five-snippet buffer is
    [pre + "Revenue: $1,234.56" + post] and no case-insensitive "Revenue"
    starts inside [pre] (the labelled value is the first label in the
    buffer), extract with the metric name "Revenue" maps "Revenue" to
    "1234.56", whatever [post] is. *)
Theorem extract_revenue_roundtrip :
  forall (d : list (string * json)) (ds : list (list (string * json))) (ts : list string)
         (pre post : string),
    dict_get d "search_results" = Some (JArr (map JObj ds)) ->
    Forall2 (fun d t => dict_get d "text" = Some (JStr t)) ds ts ->
    buffer_of (firstn 5 ts) = pre ++ "Revenue: $1,234.56" ++ post ->
    (forall i, i < List.length (chars pre) ->
       ci_prefixb (chars "Revenue") (skipn i (chars (pre ++ "Revenue: $1,234.56" ++ post))) = false) ->
    extract_metrics_from_response (JObj d) (Some ["Revenue"]) = Ok [("Revenue", "1234.56")].
Proof.
  intros d ds ts pre post Hd Hf Hbuf Hpre.
  rewrite (extract_on_snippets _ _ _ Hd), firstn_map,
    (combine_texts_dicts (firstn 5 ds) (firstn 5 ts)) by (apply Forall2_firstn; exact Hf).
  unfold buffer_of in Hbuf. cbn [res_bind names_or_default]. rewrite Hbuf.
  cbn [fill_metrics]. rewrite try_revenue by exact Hpre. reflexivity.
Qed.

(** C4: a metric name with an unbalanced parenthesis is spliced into the
    pattern as it is; [re.compile] raises [re.error] and so does extract,
    though the name occurs nowhere in the snippets. *)
Theorem extract_metacharacter_raises :
  extract_metrics_from_response (JObj (response_of [snippet "Revenue: $1,000"]))
    (Some ["Revenue (USD"]) = Exc ReError.
Proof. vm_compute. reflexivity. Qed.

(** C10: for the metric name "Revenue (USD)" the parentheses form group 1;
    on the snippet "Revenue USD 1,000" the value recorded is "USD", which
    is neither "N/A" nor a number. *)
Theorem extract_group_from_metric_name :
  extract_metrics_from_response (JObj (response_of [snippet "Revenue USD 1,000"]))
    (Some ["Revenue (USD)"]) = Ok [("Revenue (USD)", "USD")].
Proof. vm_compute. reflexivity. Qed.

(** Two snippets; the labelled value follows a different label. *)
Lemma extract_revenue_roundtrip_witness :
  extract_metrics_from_response
    (JObj (response_of (map snippet ["Net profit: $7"; "Revenue: $1,234.56 in FY2024"])))
    (Some ["Revenue"]) = Ok [("Revenue", "1234.56")].
Proof.
  apply (extract_revenue_roundtrip
           (response_of (map snippet ["Net profit: $7"; "Revenue: $1,234.56 in FY2024"]))
           [[("text", JStr "Net profit: $7")]; [("text", JStr "Revenue: $1,234.56 in FY2024")]]
           ["Net profit: $7"; "Revenue: $1,234.56 in FY2024"]
           " Net profit: $7 " " in FY2024").
  - reflexivity.
  - repeat constructor.
  - reflexivity.
  - intros i Hi; simpl in Hi; repeat (destruct i as [|i]; [reflexivity|]); lia.
Defined.

(* ------------------------------------------------------------------ *)
(** ** The batch upload *)

(** The outcome [(success, message)] of uploading one file, and the
    requests the attempt issues. *)
Definition upload_verdict (m : upload_method) (c : client) (srv : server) (f : string * string)
  : bool * string :=
  match result_of (upload_one m c (snd f) (fst f) srv) empty_world with
  | Ok p => p
  | _ => (false, EmptyString)
  end.

Definition upload_requests (m : upload_method) (c : client) (srv : server) (f : string * string)
  : list request :=
  trace (snd (upload_one m c (snd f) (fst f) srv empty_world)).

(** What the loop shows for one file. *)
Definition file_messages (m : upload_method) (c : client) (srv : server) (f : string * string)
  : list ui_msg :=
  [UiStatus ("Uploading " ++ fst f ++ "...");
   if fst (upload_verdict m c srv f) then UiSuccess (snd (upload_verdict m c srv f))
   else UiError (snd (upload_verdict m c srv f))].

Definition success_total (m : upload_method) (c : client) (srv : server)
  (files : list (string * string)) : nat :=
  List.length (filter (fun f => fst (upload_verdict m c srv f)) files).

(** One upload acts on the world only by the requests it issues. *)
Lemma upload_one_frame (m : upload_method) (c : client) (srv : server) (name content : string)
  (w : world) :
  upload_one m c content name srv w
  = (Ok (upload_verdict m c srv (name, content)),
     mk_world (ses w) (trace w ++ upload_requests m c srv (name, content))%list (shown w)).
Proof.
  destruct w as [s tr sh]; unfold upload_verdict, upload_requests, result_of; simpl.
  destruct m; unfold upload_one, upload_file, upload_file_v1, try_except, bind, http, ret, raise,
    py_int, is_code; simpl;
  repeat (match goal with
          | |- context [srv ?r] => destruct (srv r) as [[? ? ?]|?]
          | |- context [Z.eqb ?a ?b] => destruct (Z.eqb a b)
          | |- context [parse_int ?s] => destruct (parse_int s)
          end; simpl);
  rewrite ?app_nil_r; reflexivity.
Qed.

Lemma remember_upload_frame (name : string) (w : world) :
  exists s', remember_upload name w = (Ok tt, mk_world s' (trace w) (shown w)).
Proof.
  destruct w as [s tr sh]; unfold remember_upload, bind, get_session, put_session, ret; simpl.
  destruct (existsb (String.eqb name) (uploaded_files_list s)); eexists; reflexivity.
Qed.

Lemma upload_loop_run (m : upload_method) (c : client) (srv : server) :
  forall (files : list (string * string)) (n : nat) (w : world),
    exists s', upload_loop m (Some c) files srv n w
      = (Ok (n + success_total m c srv files),
         mk_world s' (trace w ++ List.concat (map (upload_requests m c srv) files))%list
                     (shown w ++ List.concat (map (file_messages m c srv) files))%list).
Proof.
  induction files as [|[name content] fs IH]; intros n w.
  - exists (ses w). destruct w; simpl. rewrite Nat.add_0_r, !app_nil_r. reflexivity.
  - cbn [upload_loop]. unfold bind at 1, show at 1. cbn beta iota.
    unfold bind at 1. rewrite upload_one_frame. cbn beta iota.
    unfold success_total; cbn [filter map List.concat]. fold (success_total m c srv fs).
    unfold file_messages at 1; cbn [fst snd].
    destruct (upload_verdict m c srv (name, content)) as [ok msg] eqn:V; cbn [fst snd].
    destruct ok; unfold bind, show, ret; cbn beta iota;
      [match goal with |- context [remember_upload name ?w1] =>
         destruct (remember_upload_frame name w1) as [s1 ->] end; cbn beta iota|];
      match goal with |- context [upload_loop m (Some c) fs srv ?k ?w1] =>
        destruct (IH k w1) as [s2 ->] end;
      exists s2; simpl; rewrite <- ?app_assoc, ?Nat.add_succ_r; reflexivity.
Qed.

(** C7: the batch upload is a sequential fold over the selected files that
    attempts every one: with a connected client and the upload button
    pressed, the requests are those of the files' uploads in order, each
    file's outcome is shown on its own after its "Uploading ..." status
    whatever the earlier outcomes were, and the final status reports the
    number of successes out of the number of files. *)
Theorem batch_upload_sequential :
  forall (srv : server) (wd : widgets) (w : world) (c : client),
    connected (ses w) = true ->
    vectara_client (ses w) = Some c ->
    w_files wd <> [] ->
    result_of (tab_upload srv wd UploadButton) w = Ok tt /\
    trace (snd (tab_upload srv wd UploadButton w))
      = (trace w ++ List.concat (map (upload_requests (w_upload_method wd) c srv) (w_files wd)))%list /\
    shown (snd (tab_upload srv wd UploadButton w))
      = (shown w ++ List.concat (map (file_messages (w_upload_method wd) c srv) (w_files wd))
         ++ [UiStatus (upload_report (success_total (w_upload_method wd) c srv (w_files wd))
                                     (List.length (w_files wd)))])%list.
Proof.
  intros srv wd w c Hcon Hcl Hne.
  destruct (upload_loop_run (w_upload_method wd) c srv (w_files wd) 0 w) as [s' E].
  unfold result_of, tab_upload, get_session, bind. rewrite Hcon, Hcl.
  destruct (w_files wd) as [|f fs] eqn:Ef; [congruence|]. cbn [button_eqb].
  rewrite E. unfold show; simpl. rewrite <- ?app_assoc. repeat split; reflexivity.
Qed.

(** Three files; the service refuses the second with a 403. *)
Definition srv_second_forbidden : server :=
  fun rq => match rq with
            | ReqUploadFile _ name _ =>
              if String.eqb name "q2.pdf"
              then Resp (mk_response 403 "forbidden" (JsonBody JNull))
              else Resp (mk_response 201 "created" (JsonBody JNull))
            | _ => Resp (mk_response 200 "ok" (JsonBody JNull))
            end.

Definition three_files : list (string * string) :=
  [("q1.pdf", "%PDF-1"); ("q2.pdf", "%PDF-2"); ("q3.pdf", "%PDF-3")].

Definition upload_widgets : widgets :=
  mk_widgets "zut_demo" "1234567" "hello_world" V2Api three_files EmptyString EmptyString.

Definition connected_world : world :=
  mk_world (mk_session (Some demo_client) [] [] true) [] [].

Lemma batch_upload_sequential_witness :
  trace (snd (tab_upload srv_second_forbidden upload_widgets UploadButton connected_world))
    = [ReqUploadFile demo_client "q1.pdf" "%PDF-1"; ReqUploadFile demo_client "q2.pdf" "%PDF-2";
       ReqUploadFile demo_client "q3.pdf" "%PDF-3"] /\
  shown (snd (tab_upload srv_second_forbidden upload_widgets UploadButton connected_world))
    = [UiStatus "Uploading q1.pdf..."; UiSuccess "Successfully uploaded: q1.pdf";
       UiStatus "Uploading q2.pdf...";
       UiError "403 Forbidden - Check corpus permissions for uploads. Response: forbidden";
       UiStatus "Uploading q3.pdf..."; UiSuccess "Successfully uploaded: q3.pdf";
       UiStatus "Upload complete! 2/3 files uploaded successfully."].
Proof.
  destruct (batch_upload_sequential srv_second_forbidden upload_widgets connected_world demo_client
              eq_refl eq_refl ltac:(discriminate)) as [_ [Ht Hs]].
  rewrite Ht, Hs. split; vm_compute; reflexivity.
Defined.

(* ------------------------------------------------------------------ *)
(** ** Which clients the script sends operations to *)

(** A client passes the connectivity check when the service answers its
    [GET /corpora/{corpus_id}] with HTTP 200 (what [test_connection]
    counts as success). *)
Definition passes_check (srv : server) (c : client) : bool :=
  match srv (ReqGetCorpus c) with
  | Resp r => Z.eqb (status_code r) 200
  | Raised _ => false
  end.

(** Every request other than the check itself. *)
Definition is_operation (rq : request) : bool :=
  match rq with ReqGetCorpus _ => false | _ => true end.

Definition validated_in (srv : server) (tr : list request) : Prop :=
  Forall (fun rq => is_operation rq = true -> passes_check srv (request_client rq) = true) tr.

(** The session holds only clients that pass the check. *)
Definition session_ok (srv : server) (s : session) : Prop :=
  forall c, vectara_client s = Some c -> passes_check srv c = true.

(** The sessions a user can reach from a fresh one, run after run. *)
Inductive reachable (srv : server) : session -> Prop :=
| reach_init : reachable srv init_session
| reach_step (s : session) (wd : widgets) (b : button) :
    reachable srv s -> reachable srv (fst (step srv wd b s)).

Section Guard.
Variable srv : server.

Definition world_ok (w : world) : Prop := session_ok srv (ses w) /\ validated_in srv (trace w).

(** [m] keeps [world_ok], and its result satisfies [R]. *)
Definition safe {A : Type} (R : A -> Prop) (m : M A) : Prop :=
  forall w, world_ok w -> world_ok (snd (m w)) /\ (forall a, fst (m w) = Ok a -> R a).

Lemma safe_ret {A} (R : A -> Prop) (a : A) : R a -> safe R (ret a).
Proof. intros Ha w Hw; split; [exact Hw|]; intros a' E; injection E as <-; exact Ha. Qed.

Lemma safe_raise {A} (R : A -> Prop) (e : exn) : safe R (raise e).
Proof. intros w Hw; split; [exact Hw | discriminate]. Qed.

Lemma safe_lift {A} (R : A -> Prop) (r : res A) : (forall a, r = Ok a -> R a) -> safe R (lift r).
Proof. intros H w Hw; split; [exact Hw | exact H]. Qed.

Lemma safe_show (R : unit -> Prop) (m : ui_msg) : R tt -> safe R (show m).
Proof. intros H [s tr sh] Hw; split; [exact Hw|]; intros [] _; exact H. Qed.

Lemma safe_get : safe (session_ok srv) get_session.
Proof. intros w Hw; split; [exact Hw|]; intros a E; injection E as <-; apply Hw. Qed.

Lemma safe_put (R : unit -> Prop) (s : session) : session_ok srv s -> R tt -> safe R (put_session s).
Proof. intros Hs HR w Hw; split; [split; [exact Hs | apply Hw]|]; intros [] _; exact HR. Qed.

Lemma safe_bind {A B} (R1 : A -> Prop) (R2 : B -> Prop) (m : M A) (f : A -> M B) :
  safe R1 m -> (forall a, R1 a -> safe R2 (f a)) -> safe R2 (bind m f).
Proof.
  intros Hm Hf w Hw. unfold bind. destruct (Hm w Hw) as [Hw' Ha].
  destruct (m w) as [[a| |] w']; simpl in *; [|split; [exact Hw' | discriminate]..].
  apply (Hf a (Ha a eq_refl) w' Hw').
Qed.

Lemma safe_try {A} (R : A -> Prop) (m : M A) (h : exn -> M A) :
  safe R m -> (forall e, safe R (h e)) -> safe R (try_except m h).
Proof.
  intros Hm Hh w Hw. unfold try_except. destruct (Hm w Hw) as [Hw' Ha].
  destruct (m w) as [[a|[]|] w']; simpl in *; auto; try (split; [exact Hw' | discriminate]);
    apply (Hh _ w' Hw').
Qed.

Lemma safe_weaken {A} (R R' : A -> Prop) (m : M A) :
  safe R m -> (forall a, R a -> R' a) -> safe R' m.
Proof. intros Hm H w Hw; destruct (Hm w Hw) as [H1 H2]; split; auto. Qed.

Lemma validated_snoc (tr : list request) (rq : request) :
  validated_in srv tr -> (is_operation rq = true -> passes_check srv (request_client rq) = true) ->
  validated_in srv (tr ++ [rq])%list.
Proof. intros H1 H2. apply Forall_app; split; [exact H1 | constructor; [exact H2 | constructor]]. Qed.

(** An operation that leaves the world as it is or issues one request of
    client [c], with [c] passing the check. *)
Lemma safe_single_request {A} (R : A -> Prop) (op : M A) (c : client) :
  passes_check srv c = true ->
  (forall a, R a) ->
  (forall w, snd (op w) = w \/
             exists rq, request_client rq = c /\ snd (op w) = mk_world (ses w) (trace w ++ [rq])%list (shown w)) ->
  safe R op.
Proof.
  intros Hc HR Hop w [Hs Ht]; split; [|intros; apply HR].
  destruct (Hop w) as [-> | [rq [Hrq ->]]]; [split; assumption|].
  split; [exact Hs | apply validated_snoc; [exact Ht | intros _; rewrite Hrq; exact Hc]].
Qed.

Ltac one_request :=
  intros [s tr sh];
  unfold upload_file, upload_file_v1, query, list_documents, try_except, bind, http, ret, raise,
    resp_json, py_int, is_code; simpl;
  repeat (match goal with
          | |- context [srv ?r] => destruct (srv r) as [[? ? [?|?]]|?]
          | |- context [Z.eqb ?a ?b] => destruct (Z.eqb a b)
          | |- context [parse_int ?s] => destruct (parse_int s)
          end; simpl);
  first [left; reflexivity | right; eexists; split; [|reflexivity]; reflexivity].

Lemma safe_upload_one (m : upload_method) (c : client) (content name : string) :
  passes_check srv c = true -> safe (fun _ => True) (upload_one m c content name srv).
Proof.
  intro Hc; apply (safe_single_request _ _ c Hc); [auto|]; destruct m; unfold upload_one; one_request.
Qed.

Lemma safe_query (c : client) (q : string) (n : nat) :
  passes_check srv c = true -> safe (fun _ => True) (query c q n srv).
Proof. intro Hc; apply (safe_single_request _ _ c Hc); [auto | one_request]. Qed.

Lemma safe_list_documents (c : client) :
  passes_check srv c = true -> safe (fun _ => True) (list_documents c srv).
Proof. intro Hc; apply (safe_single_request _ _ c Hc); [auto | one_request]. Qed.

Lemma safe_http_check (c : client) : safe (fun r => srv (ReqGetCorpus c) = Resp r) (http srv (ReqGetCorpus c)).
Proof.
  intros [s tr sh] [Hs Ht]; unfold http; simpl.
  destruct (srv (ReqGetCorpus c)) eqn:E; simpl;
    (split; [split; [exact Hs | apply validated_snoc; [exact Ht | discriminate]]|]);
    [intros a Ea; injection Ea as <-; reflexivity | discriminate].
Qed.

Lemma safe_check_permissions (c : client) :
  passes_check srv c = true -> safe (fun _ => True) (check_permissions c srv).
Proof.
  intro Hc. unfold check_permissions. apply safe_try; [|intros; apply safe_ret; exact I].
  apply (safe_bind (fun _ => True)); [apply safe_list_documents, Hc|intros rt _].
  apply (safe_bind (fun _ => True)); [apply (safe_weaken _ _ _ (safe_http_check c)); auto|].
  intros; apply safe_ret; exact I.
Qed.

(** [test_connection] reports success only for a client that passes the check. *)
Lemma safe_test_connection (c : client) :
  safe (fun r => fst r = true -> passes_check srv c = true) (test_connection c srv).
Proof.
  unfold test_connection. apply safe_try; [|intros; apply safe_ret; discriminate].
  apply (safe_bind _ _ _ _ (safe_http_check c)). intros r Hr.
  unfold is_code. destruct (Z.eqb (status_code r) 200) eqn:E200.
  - apply safe_ret; intros _; unfold passes_check; rewrite Hr; exact E200.
  - repeat (destruct (Z.eqb _ _)); apply safe_ret; discriminate.
Qed.

Lemma safe_initialize (k cu co : string) :
  safe (fun r => forall c, fst r = Some c -> passes_check srv c = true)
       (initialize_vectara k cu co srv).
Proof.
  unfold initialize_vectara. apply safe_try; [|intros; apply safe_ret; discriminate].
  apply (safe_bind _ _ _ _ (safe_test_connection _)). intros r Hr.
  destruct (fst r) eqn:E.
  - apply safe_ret; intros c Ec; injection Ec as <-; apply Hr; reflexivity.
  - apply safe_ret; discriminate.
Qed.

Lemma safe_remember_upload (name : string) : safe (fun _ => True) (remember_upload name).
Proof.
  unfold remember_upload. apply (safe_bind _ _ _ _ safe_get). intros s Hs.
  destruct (existsb _ _); [apply safe_ret; exact I|apply safe_put; [exact Hs|exact I]].
Qed.

Ltac safe_auto :=
  repeat match goal with
  | |- safe _ (bind get_session _) =>
      apply (safe_bind _ _ _ _ safe_get); let s := fresh "s" in let Hs := fresh "Hs" in intros s Hs
  | |- safe _ (bind (initialize_vectara ?k ?cu ?co srv) _) =>
      apply (safe_bind _ _ _ _ (safe_initialize k cu co)); let r := fresh "r" in
      let Hr := fresh "Hr" in intros r Hr
  | |- safe _ (bind _ _) => apply (safe_bind (fun _ => True)); [|intros ? _]
  | |- safe _ (ret _) => apply safe_ret; exact I
  | |- safe _ (raise _) => apply safe_raise
  | |- safe _ (lift _) => apply safe_lift; intros; exact I
  | |- safe _ (show _) => apply safe_show; exact I
  | |- safe _ (put_session _) =>
      apply safe_put; [unfold session_ok, set_client; simpl; eauto; try discriminate|exact I]
  | |- safe _ (remember_upload _) => apply safe_remember_upload
  | H : vectara_client ?s = Some ?c, Hs : session_ok srv ?s |- safe _ (check_permissions ?c srv) =>
      apply safe_check_permissions, Hs, H
  | H : vectara_client ?s = Some ?c, Hs : session_ok srv ?s |- safe _ (list_documents ?c srv) =>
      apply safe_list_documents, Hs, H
  | H : vectara_client ?s = Some ?c, Hs : session_ok srv ?s |- safe _ (query ?c _ _ srv) =>
      apply safe_query, Hs, H
  | |- safe _ (if ?b then _ else _) => destruct b eqn:?
  | |- safe _ (match ?x with _ => _ end) => destruct x eqn:?
  end.

Lemma safe_upload_loop (m : upload_method) (client : option client) :
  (forall c, client = Some c -> passes_check srv c = true) ->
  forall files n, safe (fun _ => True) (upload_loop m client files srv n).
Proof.
  intros Hc files; induction files as [|[name content] fs IH]; intro n; simpl; [apply safe_ret; exact I|].
  apply (safe_bind (fun _ => True)); [apply safe_show; exact I|intros _ _].
  destruct client as [c|]; [|apply safe_raise].
  apply (safe_bind (fun _ => True)); [apply safe_upload_one, Hc; reflexivity|intros r _].
  apply (safe_bind (fun _ => True)); [|intros; apply IH].
  destruct (fst r); safe_auto.
Qed.

Lemma safe_run_script (wd : widgets) (b : button) : safe (fun _ => True) (run_script srv wd b).
Proof.
  unfold run_script.
  apply (safe_bind (fun _ => True)); [|intros _ _].
  { unfold sidebar. safe_auto. }
  apply (safe_bind (fun _ => True)); [|intros _ _].
  { unfold tab_upload. safe_auto. apply safe_upload_loop. intros c Hc; apply Hs, Hc. }
  apply (safe_bind (fun _ => True)); [|intros _ _].
  { unfold tab_query. safe_auto. }
  unfold tab_compare. safe_auto.
Qed.

End Guard.

(** A service that refuses every request with HTTP 401. *)
Definition srv_unauthorized : server :=
  fun _ => Resp (mk_response 401 "invalid api key" (JsonBody JNull)).

(** C2 (counterexample): a client that fails the connectivity check is not
    stopped by the client class: [query], [upload_file] and
    [list_documents] each send their request to the service. *)
Lemma unchecked_client_calls_service :
  passes_check srv_unauthorized demo_client = false /\
  trace (snd (query demo_client "q" 10 srv_unauthorized empty_world))
    = [ReqQuery demo_client "q" 10] /\
  trace (snd (upload_file demo_client "%PDF-1" "q1.pdf" srv_unauthorized empty_world))
    = [ReqUploadFile demo_client "q1.pdf" "%PDF-1"] /\
  trace (snd (list_documents demo_client srv_unauthorized empty_world))
    = [ReqListDocuments demo_client].
Proof. repeat split; reflexivity. Qed.

(** C2 (amended): the guard is the script's, not the client's.  In every
    session a user can reach from a fresh one, the stored client passes the
    connectivity check, and every operation request (upload, v1 index,
    query, list documents) a run of the script issues goes to a client
    that passes it; a client that never passed it receives only the check
    itself. *)
Theorem reachable_operations_validated :
  forall (srv : server) (s : session) (wd : widgets) (b : button),
    reachable srv s ->
    session_ok srv s /\ validated_in srv (snd (step srv wd b s)).
Proof.
  intros srv s wd b Hr.
  assert (Hs : session_ok srv s).
  { induction Hr as [|s' wd' b' _ IH].
    - intros c E; discriminate.
    - unfold step; simpl.
      apply (safe_run_script srv wd' b' (mk_world s' [] [])); split; [exact IH | constructor]. }
  split; [exact Hs|].
  unfold step; simpl.
  apply (safe_run_script srv wd b (mk_world s [] [])); split; [exact Hs | constructor].
Qed.

(** A service that accepts everything. *)
Definition srv_accepting : server :=
  fun _ => Resp (mk_response 200 "{}" (JsonBody (JObj []))).

Definition login_widgets : widgets :=
  mk_widgets "zut_demo" "1234567" "hello_world" V2Api [] "What is the revenue?" EmptyString.

(** Connect, then search: the query goes to the connected client. *)
Lemma reachable_operations_validated_witness :
  let s1 := fst (step srv_accepting login_widgets ConnectButton init_session) in
  reachable srv_accepting s1 /\
  snd (step srv_accepting login_widgets SearchButton s1)
    = [ReqQuery demo_client "What is the revenue?" 10] /\
  session_ok srv_accepting s1 /\
  validated_in srv_accepting (snd (step srv_accepting login_widgets SearchButton s1)).
Proof.
  intro s1. assert (H : reachable srv_accepting s1) by (apply reach_step, reach_init).
  split; [exact H|]. split; [vm_compute; reflexivity|].
  apply (reachable_operations_validated srv_accepting s1 login_widgets SearchButton H).
Defined.

(* ================================================================== *)
(** * Further properties of the client and the script *)

(* ------------------------------------------------------------------ *)
(** ** The client's operations, one by one *)

(** Whether [upload_file] / [upload_file_v1] count an outcome as success. *)
Definition accepted (o : outcome) : bool :=
  match o with
  | Resp r => Z.eqb (status_code r) 200 || Z.eqb (status_code r) 201
  | Raised _ => false
  end.

(** Whether [list_documents] returns a document listing for an outcome. *)
Definition listing_ok (o : outcome) : bool :=
  match o with
  | Resp r => Z.eqb (status_code r) 200 &&
              match resp_body r with JsonBody _ => true | TextBody _ => false end
  | Raised _ => false
  end.

Ltac run_op srv :=
  repeat (match goal with
          | |- context [srv ?r] => destruct (srv r) as [[? ? [?|?]]|?]
          | |- context [Z.eqb ?a ?b] => destruct (Z.eqb a b)
          | |- context [parse_int ?s] => destruct (parse_int s)
          end; simpl).

(** X1: [test_connection] sends one GET for the corpus and reports success
    exactly when the client passes the connectivity check (HTTP 200). *)
Theorem test_connection_ok_iff_check :
  forall (c : client) (srv : server) (w : world),
    snd (test_connection c srv w) = mk_world (ses w) (trace w ++ [ReqGetCorpus c])%list (shown w) /\
    exists msg, result_of (test_connection c srv) w = Ok (passes_check srv c, msg).
Proof.
  intros c srv [s tr sh].
  unfold result_of, passes_check, test_connection, try_except, bind, http, ret, raise, is_code; simpl.
  run_op srv; split; eauto.
Qed.

(** X2: [upload_file] sends one multipart request and reports success exactly
    when the service answers 200 or 201, with the message
    "Successfully uploaded: <name>". *)
Theorem upload_file_single_request :
  forall (c : client) (content name : string) (srv : server) (w : world),
    snd (upload_file c content name srv w)
      = mk_world (ses w) (trace w ++ [ReqUploadFile c name content])%list (shown w) /\
    exists msg, result_of (upload_file c content name srv) w
                = Ok (accepted (srv (ReqUploadFile c name content)), msg) /\
      (accepted (srv (ReqUploadFile c name content)) = true -> msg = "Successfully uploaded: " ++ name).
Proof.
  intros c content name srv [s tr sh].
  unfold result_of, accepted, upload_file, try_except, bind, http, ret, raise, is_code; simpl.
  run_op srv; split; eauto; eexists; split; try reflexivity; discriminate.
Qed.

(** X3: [upload_file_v1] with two integer ids sends one v1 index request and
    reports success exactly when the service answers 200 or 201. *)
Theorem upload_file_v1_single_request :
  forall (c : client) (content name : string) (srv : server) (w : world),
    parse_int (customer_id c) <> None -> parse_int (corpus_id c) <> None ->
    snd (upload_file_v1 c content name srv w)
      = mk_world (ses w) (trace w ++ [ReqIndexV1 c name content])%list (shown w) /\
    exists msg, result_of (upload_file_v1 c content name srv) w
                = Ok (accepted (srv (ReqIndexV1 c name content)), msg) /\
      (accepted (srv (ReqIndexV1 c name content)) = true -> msg = "Successfully uploaded: " ++ name).
Proof.
  intros c content name srv [s tr sh] Hcu Hco.
  unfold result_of, accepted, upload_file_v1, py_int, try_except, bind, http, ret, raise, is_code.
  destruct (parse_int (customer_id c)); [|congruence].
  destruct (parse_int (corpus_id c)); [|congruence]. simpl.
  run_op srv; split; eauto; eexists; split; try reflexivity; discriminate.
Qed.


(** X5: [check_permissions] lists the documents, then GETs the corpus.  A
    transport error on the second request gives the error report;
    otherwise [can_read] says the listing succeeded (HTTP 200 with a JSON
    body), [can_view_corpus] says the GET answered 200, and a read error is
    given exactly when [can_read] is false. *)
Theorem check_permissions_report :
  forall (c : client) (srv : server) (w : world),
    snd (check_permissions c srv w)
      = mk_world (ses w) (trace w ++ [ReqListDocuments c; ReqGetCorpus c])%list (shown w) /\
    match srv (ReqGetCorpus c) with
    | Raised m => result_of (check_permissions c srv) w = Ok (PermsError m)
    | Resp r => exists rd, result_of (check_permissions c srv) w
                  = Ok (Perms (listing_ok (srv (ReqListDocuments c))) (Z.eqb (status_code r) 200) rd) /\
                (rd = None <-> listing_ok (srv (ReqListDocuments c)) = true)
    end.
Proof.
  intros c srv [s tr sh].
  unfold result_of, listing_ok, check_permissions, list_documents, try_except, bind, http, ret,
    raise, resp_json, is_code; simpl.
  destruct (srv (ReqGetCorpus c)) as [[gc gt gb]|gm] eqn:Eg;
  destruct (srv (ReqListDocuments c)) as [[lc lt [lj|ld]]|lm]; simpl;
    repeat (destruct (Z.eqb _ _); simpl); rewrite <- ?app_assoc; simpl;
    (split; [try reflexivity|]); try reflexivity;
    eexists; (split; [reflexivity|]); split; congruence.
Qed.

(** X6: [initialize_vectara] runs the connectivity check on the client built
    from the three fields (one GET) and returns that client, with no error,
    exactly when the check passes; otherwise no client and an error
    message. *)
Theorem initialize_vectara_result :
  forall (k cu co : string) (srv : server) (w : world),
    snd (initialize_vectara k cu co srv w)
      = mk_world (ses w) (trace w ++ [ReqGetCorpus (mk_client k cu co)])%list (shown w) /\
    (passes_check srv (mk_client k cu co) = true ->
       result_of (initialize_vectara k cu co srv) w = Ok (Some (mk_client k cu co), None)) /\
    (passes_check srv (mk_client k cu co) = false ->
       exists msg, result_of (initialize_vectara k cu co srv) w = Ok (None, Some msg)).
Proof.
  intros k cu co srv [s tr sh].
  unfold result_of, passes_check, initialize_vectara, test_connection, try_except, bind, http, ret,
    raise, is_code; simpl.
  run_op srv; (split; [reflexivity|]); split; intro H; try discriminate; eauto.
Qed.

(* ------------------------------------------------------------------ *)
(** ** The extractor's table *)

Lemma dict_set_keys_in (d : metric_table) (k v : string) :
  In k (map fst d) -> map fst (dict_set d k v) = map fst d.
Proof.
  induction d as [|[k' v'] d IH]; simpl; [intros []|]. intros H.
  destruct (String.eqb_spec k k') as [->|Hne]; simpl; [reflexivity|].
  rewrite IH; [reflexivity|]. destruct H; [congruence|assumption].
Qed.

Lemma dict_set_keys_notin (d : metric_table) (k v : string) :
  ~ In k (map fst d) -> map fst (dict_set d k v) = (map fst d ++ [k])%list.
Proof.
  induction d as [|[k' v'] d IH]; simpl; [reflexivity|]. intros H.
  destruct (String.eqb_spec k k') as [->|Hne]; [exfalso; apply H; left; reflexivity|].
  simpl; rewrite IH; [reflexivity|]. intro; apply H; right; assumption.
Qed.

Lemma na_table_fold_keys (names : list string) :
  forall acc : metric_table, NoDup (map fst acc) ->
    NoDup (map fst (fold_left (fun d n => dict_set d n "N/A") names acc)) /\
    (forall n, In n (map fst (fold_left (fun d n => dict_set d n "N/A") names acc))
               <-> In n (map fst acc) \/ In n names).
Proof.
  induction names as [|m names IH]; intros acc Hnd; simpl.
  - split; [exact Hnd|]. intro n; tauto.
  - destruct (in_dec string_dec m (map fst acc)) as [Hin|Hout].
    + assert (E : map fst (dict_set acc m "N/A") = map fst acc) by (apply dict_set_keys_in; exact Hin).
      rewrite <- E in Hnd. destruct (IH _ Hnd) as [H1 H2]. split; [exact H1|]. intro n.
      rewrite H2, E. split; [intros [H|H]; auto|intros [H|[<-|H]]; auto].
    + assert (Hnd' : NoDup (map fst (dict_set acc m "N/A"))).
      { rewrite dict_set_keys_notin by exact Hout. apply NoDup_app; [exact Hnd| |].
        - constructor; [intros []|constructor].
        - intros x Hx [<-|[]]; contradiction. }
      destruct (IH _ Hnd') as [H1 H2]. split; [exact H1|]. intro n. rewrite H2.
      rewrite dict_set_keys_notin by exact Hout. rewrite in_app_iff. simpl.
      split; [intros [[H|[H|[]]]|H]; subst; auto|intros [H|[H|H]]; auto].
Qed.

Lemma fill_metrics_keys (names : list string) :
  forall (combined : string) (t t' : metric_table),
    (forall m, In m names -> In m (map fst t)) ->
    fill_metrics names combined t = Ok t' -> map fst t' = map fst t.
Proof.
  induction names as [|m names IH]; intros combined t t' Hk H; cbn [fill_metrics] in H.
  - injection H as <-; reflexivity.
  - destruct (try_patterns (patterns m) combined) as [[x|]| |]; cbn [res_bind] in H; try discriminate.
    + rewrite <- (dict_set_keys_in t m x) by (apply Hk; left; reflexivity).
      apply (IH combined); [|exact H].
      intros m' Hm'. rewrite dict_set_keys_in by (apply Hk; left; reflexivity).
      apply Hk; right; exact Hm'.
    + apply (IH combined); [|exact H]. intros m' Hm'. apply Hk; right; exact Hm'.
Qed.

(** [extract_metrics_from_response] is this function of the response and
    the names: the helper for both table facts below. *)
Lemma extract_cases (response_data : json) (names : option (list string)) (t : metric_table) :
  extract_metrics_from_response response_data names = Ok t ->
  t = na_table (names_or_default names) \/
  exists combined, fill_metrics (names_or_default names) combined (na_table (names_or_default names)) = Ok t.
Proof.
  unfold extract_metrics_from_response.
  destruct (truthy response_data); [|intro H; injection H as <-; left; reflexivity].
  destruct (py_in "search_results" response_data) as [[]| |]; simpl; try discriminate;
    [|intro H; injection H as <-; left; reflexivity].
  destruct (py_getitem response_data "search_results") as [sr| |]; simpl; try discriminate.
  destruct (py_slice_prefix 5 sr) as [rs| |]; simpl; try discriminate.
  destruct (combine_texts rs EmptyString) as [combined| |]; simpl; try discriminate.
  intro H; right; exists combined; exact H.
Qed.

(** X7: With no usable search results (a falsy response such as [None] or an
    empty dict, or a dict without "search_results"), extract maps every
    requested name to "N/A". *)
Theorem extract_no_results_all_na :
  forall (response_data : json) (names : option (list string)),
    (truthy response_data = false \/
     exists d, response_data = JObj d /\ dict_get d "search_results" = None) ->
    extract_metrics_from_response response_data names = Ok (na_table (names_or_default names)).
Proof.
  intros r names [H|[d [-> H]]]; unfold extract_metrics_from_response.
  - rewrite H; reflexivity.
  - destruct (truthy (JObj d)); [|reflexivity]. simpl. rewrite H. reflexivity.
Qed.

(** X8: When extract returns a table, its keys are the requested names (the
    default list for [None]), each once: duplicates in the request are
    merged and no other key appears. *)
Theorem extract_keys_exact :
  forall (response_data : json) (names : option (list string)) (t : metric_table),
    extract_metrics_from_response response_data names = Ok t ->
    NoDup (map fst t) /\ (forall n, In n (map fst t) <-> In n (names_or_default names)).
Proof.
  intros r names t H.
  assert (Hk : map fst t = map fst (na_table (names_or_default names))).
  { destruct (extract_cases r names t H) as [->|[combined Hf]]; [reflexivity|].
    apply (fill_metrics_keys (names_or_default names) combined); [|exact Hf].
    intros m Hm. apply (na_table_fold_keys _ [] (NoDup_nil _)). right; exact Hm. }
  rewrite Hk. destruct (na_table_fold_keys (names_or_default names) [] (NoDup_nil _)) as [H1 H2].
  split; [exact H1|]. intro n. unfold na_table. rewrite H2. simpl. tauto.
Qed.

Lemma try_patterns_comma_free (ps : list string) (text x : string) :
  try_patterns ps text = Ok (Some x) -> ~ In ","%char (chars x).
Proof.
  induction ps as [|p ps IH]; simpl; [discriminate|].
  destruct (re_search p text) as [[mo|]| |]; simpl; try discriminate; [|exact IH].
  destruct (group mo 1) as [g|]; [|discriminate]. intro H; injection H as <-.
  unfold chars, of_chars. rewrite list_ascii_of_string_of_list_ascii.
  unfold remove_commas. rewrite filter_In. intros [_ Hc].
  unfold char_eqb in Hc. rewrite Ascii.eqb_refl in Hc. discriminate.
Qed.

Lemma dict_set_values (P : string -> Prop) (d : metric_table) (k v : string) :
  Forall (fun kv => P (snd kv)) d -> P v -> Forall (fun kv => P (snd kv)) (dict_set d k v).
Proof.
  induction d as [|[k' v'] d IH]; intros Hd Hv; simpl; [constructor; auto|].
  inversion Hd; subst. destruct (String.eqb k k'); constructor; auto.
Qed.

(** X9: No value in a table returned by extract contains a comma: each is
    "N/A" or a captured group with its commas removed. *)
Theorem extract_values_comma_free :
  forall (response_data : json) (names : option (list string)) (t : metric_table),
    extract_metrics_from_response response_data names = Ok t ->
    forall k v, In (k, v) t -> ~ In ","%char (chars v).
Proof.
  intros r names t H.
  assert (Hna : forall l, Forall (fun kv => ~ In ","%char (chars (snd kv))) (na_table l)).
  { intro l; unfold na_table. generalize (@Forall_nil (string * string) (fun kv => ~ In ","%char (chars (snd kv)))).
    generalize (@nil (string * string)). induction l as [|n l IH]; intros acc Hacc; simpl; [exact Hacc|].
    apply IH, (dict_set_values (fun v => ~ In ","%char (chars v))); [exact Hacc|]. simpl. intros [E|[E|[E|[]]]]; discriminate E. }
  assert (Hall : Forall (fun kv => ~ In ","%char (chars (snd kv))) t).
  { destruct (extract_cases r names t H) as [->|[combined Hf]]; [apply Hna|].
    revert Hf. generalize (na_table (names_or_default names)) (Hna (names_or_default names)).
    generalize (names_or_default names).
    induction l as [|m l IH]; intros t0 H0 Hf; cbn [fill_metrics] in Hf; [injection Hf as <-; exact H0|].
    destruct (try_patterns (patterns m) combined) as [[x|]| |] eqn:Et; cbn [res_bind] in Hf; try discriminate.
    - apply (IH (dict_set t0 m x)); [|exact Hf].
      apply (dict_set_values (fun v => ~ In ","%char (chars v))); [exact H0|].
      exact (try_patterns_comma_free _ _ _ Et).
    - apply (IH t0); assumption. }
  intros k v Hin. rewrite Forall_forall in Hall. exact (Hall (k, v) Hin).
Qed.

(** X10: A first search result whose "text" is not a string makes extract raise
    [TypeError] ([" " + text]), whatever metric names are asked for. *)
Theorem extract_non_string_text_raises :
  forall (d d1 : list (string * json)) (rest : list json) (v : json) (names : option (list string)),
    dict_get d "search_results" = Some (JArr (JObj d1 :: rest)) ->
    dict_get d1 "text" = Some v ->
    (forall s, v <> JStr s) ->
    extract_metrics_from_response (JObj d) names
    = Exc (TypeError ("can only concatenate str (not " ++ dq ++ type_name v ++ dq ++ ") to str")).
Proof.
  intros d d1 rest v names Hd H1 Hv.
  rewrite (extract_on_snippets _ _ _ Hd). cbn [firstn combine_texts py_in res_bind]. rewrite H1.
  cbn [py_getitem res_bind]. rewrite H1.
  destruct v; try reflexivity. exfalso; eapply Hv; reflexivity.
Qed.

(* ------------------------------------------------------------------ *)
(** ** Invariants of the session across runs *)

Ltac ses_unchanged srv :=
  intros [s tr sh];
  unfold check_permissions, initialize_vectara, upload_one, upload_file, upload_file_v1, query,
    list_documents, test_connection, try_except, bind, http, ret, raise, resp_json, py_int,
    is_code; simpl;
  run_op srv; reflexivity.

Lemma upload_one_ses (srv : server) (m : upload_method) (c : client) (content name : string) :
  forall w, ses (snd (upload_one m c content name srv w)) = ses w.
Proof. destruct m; ses_unchanged srv. Qed.

Lemma query_ses (srv : server) (c : client) (q : string) (n : nat) :
  forall w, ses (snd (query c q n srv w)) = ses w.
Proof. ses_unchanged srv. Qed.

Lemma list_documents_ses (srv : server) (c : client) :
  forall w, ses (snd (list_documents c srv w)) = ses w.
Proof. ses_unchanged srv. Qed.

Lemma check_permissions_ses (srv : server) (c : client) :
  forall w, ses (snd (check_permissions c srv w)) = ses w.
Proof. ses_unchanged srv. Qed.

Lemma initialize_vectara_ses (srv : server) (k cu co : string) :
  forall w, ses (snd (initialize_vectara k cu co srv w)) = ses w.
Proof. ses_unchanged srv. Qed.

Section SessionInvariant.
Variable srv : server.
Variable I : session -> Prop.
Hypothesis I_set_some : forall s c, I s -> I (set_client s (Some c) true).
Hypothesis I_set_none : forall s, I s -> I (set_client s None false).
Hypothesis I_files : forall s n, I s -> existsb (String.eqb n) (uploaded_files_list s) = false ->
  I (mk_session (vectara_client s) (uploaded_files_list s ++ [n])%list (chat_history s) (connected s)).
Hypothesis I_hist : forall s h, I s ->
  I (mk_session (vectara_client s) (uploaded_files_list s) h (connected s)).

(** [m] keeps [I] on the session, and its result satisfies [R]. *)
Definition keeps {A : Type} (R : A -> Prop) (m : M A) : Prop :=
  forall w, I (ses w) -> I (ses (snd (m w))) /\ (forall a, fst (m w) = Ok a -> R a).

Lemma keeps_ret {A} (R : A -> Prop) (a : A) : R a -> keeps R (ret a).
Proof. intros Ha w Hw; split; [exact Hw|]; intros a' E; injection E as <-; exact Ha. Qed.

Lemma keeps_raise {A} (R : A -> Prop) (e : exn) : keeps R (raise e).
Proof. intros w Hw; split; [exact Hw | discriminate]. Qed.

Lemma keeps_pure {A} (m : M A) : (forall w, ses (snd (m w)) = ses w) -> keeps (fun _ => True) m.
Proof. intros H w Hw; rewrite H; split; auto. Qed.

Lemma keeps_get : keeps I get_session.
Proof. intros w Hw; split; [exact Hw|]; intros a E; injection E as <-; exact Hw. Qed.

Lemma keeps_put (R : unit -> Prop) (s : session) : I s -> R tt -> keeps R (put_session s).
Proof. intros Hs HR w Hw; split; [exact Hs|]; intros [] _; exact HR. Qed.

Lemma keeps_bind {A B} (R1 : A -> Prop) (R2 : B -> Prop) (m : M A) (f : A -> M B) :
  keeps R1 m -> (forall a, R1 a -> keeps R2 (f a)) -> keeps R2 (bind m f).
Proof.
  intros Hm Hf w Hw. unfold bind. destruct (Hm w Hw) as [Hw' Ha].
  destruct (m w) as [[a| |] w']; simpl in *; [|split; [exact Hw' | discriminate]..].
  apply (Hf a (Ha a eq_refl) w' Hw').
Qed.

Lemma keeps_remember_upload (name : string) : keeps (fun _ => True) (remember_upload name).
Proof.
  unfold remember_upload. apply (keeps_bind _ _ _ _ keeps_get). intros s Hs.
  destruct (existsb _ _) eqn:E; [apply keeps_ret; exact Logic.I|apply keeps_put; [apply I_files; assumption|exact Logic.I]].
Qed.

Ltac keeps_auto :=
  repeat match goal with
  | |- keeps _ (bind get_session _) =>
      apply (keeps_bind _ _ _ _ keeps_get); let s := fresh "s" in let Hs := fresh "Hs" in intros s Hs
  | |- keeps _ (bind _ _) => apply (keeps_bind (fun _ => True)); [|intros ? _]
  | |- keeps _ (ret _) => apply keeps_ret; exact Logic.I
  | |- keeps _ (raise _) => apply keeps_raise
  | |- keeps _ (lift _) => apply keeps_pure; reflexivity
  | |- keeps _ (show _) => apply keeps_pure; reflexivity
  | |- keeps _ (put_session (set_client _ (Some _) true)) => apply keeps_put; [apply I_set_some; assumption|exact Logic.I]
  | |- keeps _ (put_session (set_client _ None false)) => apply keeps_put; [apply I_set_none; assumption|exact Logic.I]
  | |- keeps _ (put_session _) => apply keeps_put; [apply I_hist; assumption|exact Logic.I]
  | |- keeps _ (remember_upload _) => apply keeps_remember_upload
  | |- keeps _ (check_permissions _ _) => apply keeps_pure, check_permissions_ses
  | |- keeps _ (list_documents _ _) => apply keeps_pure, list_documents_ses
  | |- keeps _ (query _ _ _ _) => apply keeps_pure, query_ses
  | |- keeps _ (upload_one _ _ _ _ _) => apply keeps_pure, upload_one_ses
  | |- keeps _ (initialize_vectara _ _ _ _) => apply keeps_pure, initialize_vectara_ses
  | |- keeps _ (if ?b then _ else _) => destruct b eqn:?
  | |- keeps _ (match ?x with _ => _ end) => destruct x eqn:?
  end.

Lemma keeps_upload_loop (m : upload_method) (client : option client) :
  forall files n, keeps (fun _ => True) (upload_loop m client files srv n).
Proof.
  intros files; induction files as [|[name content] fs IH]; intro n; simpl; [apply keeps_ret; exact Logic.I|].
  keeps_auto; apply IH.
Qed.

Lemma keeps_run_script (wd : widgets) (b : button) : keeps (fun _ => True) (run_script srv wd b).
Proof.
  unfold run_script, sidebar, tab_upload, tab_query, tab_compare. keeps_auto.
  all: try apply keeps_upload_loop.
  (* Clear History, where [connected s] is already known to be true *)
  all: apply keeps_put; [|exact Logic.I].
  all: match goal with H : connected ?s = true |- _ => rewrite <- H; apply I_hist; assumption end.
Qed.

Lemma step_keeps (wd : widgets) (b : button) (s : session) : I s -> I (fst (step srv wd b s)).
Proof. intro Hs. unfold step; simpl. apply (keeps_run_script wd b (mk_world s [] []) Hs). Qed.

End SessionInvariant.

(** X11: In every session reachable from a fresh one, the connected flag is set
    exactly when a client is stored, and the list of uploaded files has no
    duplicates. *)
Theorem reachable_session_consistent :
  forall (srv : server) (s : session),
    reachable srv s ->
    (connected s = true <-> vectara_client s <> None) /\ NoDup (uploaded_files_list s).
Proof.
  intros srv s Hr.
  induction Hr as [|s wd b _ IH].
  - simpl. split; [split; [discriminate|intro H; exfalso; apply H; reflexivity]|constructor].
  - apply (step_keeps srv (fun s => (connected s = true <-> vectara_client s <> None) /\
                                    NoDup (uploaded_files_list s))); [| | | |exact IH].
    + intros s' c [_ H]; simpl; split; [split; [intros _; discriminate|reflexivity]|exact H].
    + intros s' [_ H]; simpl; split; [split; [discriminate|intro H'; exfalso; apply H'; reflexivity]|exact H].
    + intros s' n [H1 H2] E; simpl; split; [exact H1|].
      apply NoDup_app; [exact H2|constructor; [intros []|constructor]|].
      intros x Hx [Hxn|[]]; subst n. assert (Ex : existsb (String.eqb x) (uploaded_files_list s') = true).
      { apply existsb_exists; exists x; split; [exact Hx|apply String.eqb_refl]. }
      congruence.
    + intros s' h [H1 H2]; simpl; split; assumption.
Qed.

(* ------------------------------------------------------------------ *)
(** ** Script runs, button by button *)

(** What the service's answer to a query makes [query] return as its
    result, when the error is [None]: the decoded body of a 200. *)
Definition query_answer (o : outcome) : option json :=
  match o with
  | Resp r => if Z.eqb (status_code r) 200 then
                match resp_body r with JsonBody j => Some j | TextBody _ => None end
              else None
  | Raised _ => None
  end.

(** [remember_upload] on a plain list of names. *)
Definition add_name (l : list string) (n : string) : list string :=
  if existsb (String.eqb n) l then l else (l ++ [n])%list.

(** The names of the files of a batch whose upload succeeds, in order. *)
Definition successful_names (m : upload_method) (c : client) (srv : server)
  (files : list (string * string)) : list string :=
  map fst (filter (fun f => fst (upload_verdict m c srv f)) files).

(** Displaying stored responses returns, or raises an ordinary exception
    (never [st.rerun()]'s). *)
Definition raises_ordinary (r : res unit) : Prop :=
  r = Ok tt \/ exists e, r = Exc e /\ e <> Rerun.

(** Runs the script symbolically on a session whose fields are known,
    splitting on the service's answers and on the widget values. *)
Ltac step_run srv :=
  unfold step, run_script, sidebar, tab_upload, tab_query, tab_compare,
    check_permissions, list_documents, initialize_vectara, test_connection, query,
    try_except, http, resp_json, is_code, passes_check, query_answer;
  unfold bind, get_session, put_session, ret, raise, lift;
  cbn beta iota zeta delta [ses trace shown vectara_client uploaded_files_list chat_history
                            connected fst snd button_eqb andb resp_body status_code text];
  repeat (match goal with
          | H : ?x = _ |- context [?x] => rewrite H
          | |- context [srv ?r] => destruct (srv r) as [[? ? [?|?]]|?] eqn:?
          | |- context [Z.eqb ?a ?b] => destruct (Z.eqb a b) eqn:?
          | |- context [show_history ?h] => destruct (show_history h) eqn:?
          | |- context [extract_metrics_from_response ?r ?n] =>
              destruct (extract_metrics_from_response r n) eqn:?
          | |- context [w_files ?wd] => destruct (w_files wd) eqn:?
          | |- context [nonempty ?x] => destruct (nonempty x) eqn:?
          | |- context [truthy ?x] => destruct (truthy x) eqn:?
          end;
          cbn beta iota zeta delta [ses trace shown vectara_client uploaded_files_list chat_history
                                    connected fst snd button_eqb andb app resp_body status_code text]);
  try reflexivity.

Ltac ordinary :=
  first [ left; reflexivity | right; eexists; split; [reflexivity|discriminate] ].

Lemma upload_loop_ses (m : upload_method) (c : client) (srv : server) :
  forall (files : list (string * string)) (n : nat) (w : world),
    ses (snd (upload_loop m (Some c) files srv n w))
    = mk_session (vectara_client (ses w))
        (fold_left add_name (successful_names m c srv files) (uploaded_files_list (ses w)))
        (chat_history (ses w)) (connected (ses w)).
Proof.
  unfold successful_names.
  induction files as [|[name content] fs IH]; intros n w.
  - destruct w as [[] ? ?]; reflexivity.
  - cbn [upload_loop]. unfold bind at 1, show at 1. cbn beta iota.
    unfold bind at 1. rewrite upload_one_frame. cbn beta iota.
    cbn [filter]. destruct (upload_verdict m c srv (name, content)) as [ok msg] eqn:V; cbn [fst snd].
    destruct ok; unfold bind, show, ret; cbn beta iota.
    + unfold remember_upload, bind, get_session, put_session, ret; cbn beta iota.
      cbn [map fold_left]. unfold add_name at 2. simpl.
      destruct (existsb (String.eqb name) (uploaded_files_list (ses w))); rewrite IH; reflexivity.
    + rewrite IH; reflexivity.
Qed.

Lemma show_source_ordinary (r : json) : raises_ordinary (show_source r).
Proof.
  unfold raises_ordinary, show_source, json_get.
  destruct r; simpl; try ordinary.
  destruct (dict_get d "score") as [[]|]; destruct (dict_get d "text") as [[]|]; simpl;
  try ordinary; destruct (Nat.ltb _ _); ordinary.
Qed.

Lemma show_sources_ordinary (rs : list json) : raises_ordinary (show_sources rs).
Proof.
  induction rs as [|r rs IH]; [left; reflexivity|].
  simpl. destruct (show_source_ordinary r) as [->|[e [-> He]]]; simpl; [exact IH|].
  right; exists e; split; [reflexivity|exact He].
Qed.

Lemma show_chat_ordinary (r : json) : raises_ordinary (show_chat r).
Proof.
  unfold show_chat, py_in, py_getitem, py_slice_prefix.
  destruct r as [| | | s | l | d]; cbn [res_bind]; try ordinary.
  - destruct (str_contains "summary" s); cbn [res_bind]; try ordinary.
    destruct (str_contains "search_results" s); cbn [res_bind]; ordinary.
  - destruct (existsb _ l); cbn [res_bind]; try ordinary.
    destruct (existsb _ l); cbn [res_bind]; ordinary.
  - destruct (dict_get d "summary"); cbn [res_bind];
    destruct (dict_get d "search_results") as [sr|]; cbn [res_bind]; try ordinary;
    destruct sr; cbn [res_bind]; try ordinary; apply show_sources_ordinary.
Qed.

Lemma show_history_null (h : list (string * json)) (q : string) :
  In (q, JNull) h -> exists e, show_history h = Exc e /\ e <> Rerun.
Proof.
  induction h as [|[q' r] h IH]; [intros []|].
  intros [E|Hin].
  - injection E as -> ->. simpl. eexists; split; [reflexivity|discriminate].
  - simpl. destruct (show_chat_ordinary r) as [->|[e [-> He]]]; simpl; [exact (IH Hin)|].
    exists e; split; [reflexivity|exact He].
Qed.

Lemma split_commas_trailing (l cur : list ascii) :
  exists pre, split_commas (l ++ [","%char]) cur = (pre ++ [[]])%list.
Proof.
  revert cur; induction l as [|a l IH]; intros cur.
  - exists [cur]; reflexivity.
  - simpl. destruct (char_eqb a ",").
    + destruct (IH []) as [pre E]; exists (cur :: pre); rewrite E; reflexivity.
    + apply IH.
Qed.

Lemma split_commas_length (l cur : list ascii) :
  List.length (split_commas l cur) = S (count_occ ascii_dec l ","%char).
Proof.
  revert cur; induction l as [|a l IH]; intros cur; [reflexivity|].
  simpl. unfold char_eqb. destruct (Ascii.eqb_spec a ","%char) as [->|Ne].
  - simpl; rewrite IH; destruct (ascii_dec "," ","); [reflexivity|congruence].
  - rewrite IH. destruct (ascii_dec a ","); [congruence|reflexivity].
Qed.

Lemma split_commas_no_comma (l cur : list ascii) :
  ~ In ","%char cur -> forall x, In x (split_commas l cur) -> ~ In ","%char x.
Proof.
  revert cur; induction l as [|a l IH]; intros cur Hc x Hx.
  - destruct Hx as [<-|[]]; exact Hc.
  - simpl in Hx. unfold char_eqb in Hx. destruct (Ascii.eqb_spec a ","%char) as [->|Ne].
    + destruct Hx as [<-|Hx]; [exact Hc|]. exact (IH [] (fun H => H) x Hx).
    + apply (IH (cur ++ [a])%list); [|exact Hx].
      intros H; apply in_app_or in H as [H|[H|[]]]; [exact (Hc H)|exact (Ne H)].
Qed.

Lemma drop_spaces_suffix (l : list ascii) : exists p, l = (p ++ drop_spaces l)%list.
Proof.
  induction l as [|a l [p E]]; [exists []; reflexivity|].
  simpl. destruct (is_space a); [exists (a :: p); simpl; rewrite <- E; reflexivity|exists []; reflexivity].
Qed.

Lemma drop_spaces_head (l : list ascii) (c : ascii) (r : list ascii) :
  drop_spaces l = c :: r -> is_space c = false.
Proof.
  induction l as [|a l IH]; simpl; [discriminate|].
  destruct (is_space a) eqn:S; [exact IH|intros E; injection E as -> _; exact S].
Qed.

Lemma strip_props (l : list ascii) :
  (forall c, In c (strip l) -> In c l) /\
  (forall c r, strip l = c :: r -> is_space c = false) /\
  (forall c r, strip l = (r ++ [c])%list -> is_space c = false).
Proof.
  unfold strip. set (d := drop_spaces l).
  destruct (drop_spaces_suffix l) as [p Ep]. fold d in Ep.
  destruct (drop_spaces_suffix (rev d)) as [q Eq].
  assert (Ed : d = (rev (drop_spaces (rev d)) ++ rev q)%list).
  { rewrite <- rev_app_distr, <- Eq, rev_involutive; reflexivity. }
  split; [|split].
  - intros c Hc. rewrite Ep. apply in_or_app; right. rewrite Ed. apply in_or_app; left; exact Hc.
  - intros c r E. rewrite E in Ed. apply (drop_spaces_head l c (r ++ rev q)). fold d. rewrite Ed. reflexivity.
  - intros c r E. apply (f_equal (@rev ascii)) in E. rewrite rev_involutive, rev_app_distr in E.
    exact (drop_spaces_head (rev d) c (rev r) E).
Qed.

(** X12: A run with no button pressed issues no request and leaves the
    session as it was (whatever the history display raises). *)
Theorem step_no_button :
  forall (srv : server) (wd : widgets) (s : session),
    step srv wd NoButton s = (s, []).
Proof. intros srv wd s; destruct s as [[c|] fl h [|]]; step_run srv. Qed.

(** X13: "Test Permissions" leaves the session unchanged; for the client of a
    connected session it lists the documents, then GETs the corpus, and
    otherwise it sends nothing. *)
Theorem step_test_permissions :
  forall (srv : server) (wd : widgets) (s : session),
    step srv wd TestPermsButton s =
    (s, match connected s, vectara_client s with
        | true, Some c => [ReqListDocuments c; ReqGetCorpus c]
        | _, _ => []
        end).
Proof. intros srv wd s; destruct s as [[c|] fl h [|]]; step_run srv. Qed.

(** X14: "View Documents" leaves the session unchanged; for the client of a
    connected session it sends one document listing request, and
    otherwise nothing. *)
Theorem step_view_documents :
  forall (srv : server) (wd : widgets) (s : session),
    step srv wd ViewDocsButton s =
    (s, match connected s, vectara_client s with
        | true, Some c => [ReqListDocuments c]
        | _, _ => []
        end).
Proof. intros srv wd s; destruct s as [[c|] fl h [|]]; step_run srv. Qed.

(** X15: "Disconnect" sends nothing; in a connected session with a client it
    drops the client and clears [connected], keeping the uploaded names
    and the history; otherwise it changes nothing. *)
Theorem step_disconnect :
  forall (srv : server) (wd : widgets) (s : session),
    step srv wd DisconnectButton s =
    (match connected s, vectara_client s with
     | true, Some _ => set_client s None false
     | _, _ => s
     end, []).
Proof. intros srv wd s; destruct s as [[c|] fl h [|]]; step_run srv. Qed.

(** X16: "Connect" with the three fields filled in sends one GET for the
    corpus of the client they describe, and stores that client (and sets
    [connected]) exactly when it passes the connectivity check; a failed
    check leaves the session as it was, connected or not.  With an empty
    field it sends nothing and changes nothing. *)
Theorem step_connect :
  forall (srv : server) (wd : widgets) (s : session),
    step srv wd ConnectButton s =
    let c := mk_client (w_api_key wd) (w_customer_id wd) (w_corpus_id wd) in
    if nonempty (w_api_key wd) && nonempty (w_customer_id wd) && nonempty (w_corpus_id wd) then
      (if passes_check srv c then set_client s (Some c) true else s, [ReqGetCorpus c])
    else (s, []).
Proof. intros srv wd s; destruct s as [[c|] fl h [|]]; step_run srv. Qed.

(** X17: "Clear History" sends nothing; in a connected session it empties the
    history and keeps the rest, otherwise it changes nothing. *)
Theorem step_clear_history :
  forall (srv : server) (wd : widgets) (s : session),
    step srv wd ClearHistoryButton s =
    (if connected s then mk_session (vectara_client s) (uploaded_files_list s) [] true else s, []).
Proof. intros srv wd s; destruct s as [[c|] fl h [|]]; step_run srv. Qed.

(** X18: "Search" with a non-empty question, in a connected session with a
    client, sends one query for 10 results; the question and the result
    are appended to the history exactly when the service answers 200
    with a JSON body (which may be [null]), and nothing else changes.
    Otherwise it sends nothing and changes nothing. *)
Theorem step_search :
  forall (srv : server) (wd : widgets) (s : session),
    step srv wd SearchButton s =
    match vectara_client s with
    | Some c =>
      if connected s && nonempty (w_query wd) then
        let rq := ReqQuery c (w_query wd) 10 in
        (match query_answer (srv rq) with
         | Some j => mk_session (Some c) (uploaded_files_list s) (chat_history s ++ [(w_query wd, j)])%list true
         | None => s
         end, [rq])
      else (s, [])
    | None => (s, [])
    end.
Proof. intros srv wd s; destruct s as [[c|] fl h [|]]; step_run srv. Qed.

(** X19: "Generate Comparison" leaves the session unchanged.  In a connected
    session with a client it sends one query for 10 results whose text
    lists the comparison metrics, but only if displaying the stored
    history (in the query tab, which runs first) does not raise; if it
    raises, the run stops before the comparison tab and nothing is
    sent. *)
Theorem step_comparison :
  forall (srv : server) (wd : widgets) (s : session),
    step srv wd ComparisonButton s =
    (s, match vectara_client s with
        | Some c =>
          if connected s then
            match show_history (rev (chat_history s)) with
            | Ok _ => [ReqQuery c ("financial statements showing: "
                                   ++ String.concat ", " (comparison_metrics (w_custom_metrics wd))) 10]
            | _ => []
            end
          else []
        | None => []
        end).
Proof. intros srv wd s; destruct s as [[c|] fl h [|]]; step_run srv. Qed.

(** X20: "Upload" in a connected session with a client sends the upload
    requests of the selected files in order, and appends to the list of
    uploaded names each successfully uploaded name not already in it,
    in order; the client, history and [connected] are kept.  Otherwise it
    sends nothing and changes nothing. *)
Theorem step_upload :
  forall (srv : server) (wd : widgets) (s : session),
    step srv wd UploadButton s =
    match connected s, vectara_client s with
    | true, Some c =>
      (mk_session (Some c)
         (fold_left add_name (successful_names (w_upload_method wd) c srv (w_files wd))
            (uploaded_files_list s))
         (chat_history s) true,
       List.concat (map (upload_requests (w_upload_method wd) c srv) (w_files wd)))
    | _, _ => (s, [])
    end.
Proof.
  intros srv wd s.
  destruct s as [[c|] fl h [|]];
  unfold step, run_script, sidebar, tab_upload, tab_query, tab_compare, bind, get_session, ret, lift;
  cbn beta iota zeta delta [ses trace shown vectara_client uploaded_files_list chat_history connected
                            fst snd button_eqb andb];
  try reflexivity.
  - destruct (w_files wd) as [|f fs] eqn:F; [simpl; destruct (show_history (rev h)); reflexivity|].
    cbn beta iota zeta. rewrite <- F.
    pose proof (upload_loop_ses (w_upload_method wd) c srv (w_files wd) 0
                  (mk_world (mk_session (Some c) fl h true) [] [])) as Hs.
    destruct (upload_loop_run (w_upload_method wd) c srv (w_files wd) 0
                  (mk_world (mk_session (Some c) fl h true) [] [])) as [s' E].
    rewrite E in Hs |- *. cbn beta iota. unfold show. simpl in Hs |- *. subst s'.
    simpl; destruct (show_history (rev h)); reflexivity.
  - destruct (w_files wd) as [|[? ?] ?]; simpl; try (destruct (show_history (rev h))); reflexivity.
Qed.

(** X21: While the session is not connected, no button other than "Connect"
    sends a request or changes the session. *)
Theorem disconnected_only_connect :
  forall (srv : server) (wd : widgets) (b : button) (s : session),
    connected s = false -> b <> ConnectButton -> step srv wd b s = (s, []).
Proof.
  intros srv wd b [cl fl h cn] Hc Hb; simpl in Hc; subst cn.
  destruct b; [| |exfalso; exact (Hb eq_refl)|..]; destruct cl; step_run srv.
Qed.

(** X22: A [null] result stored in the history of a connected session (a
    search answered 200 with body [null] stores one) makes every later
    run without a button press raise an ordinary exception when the
    history is displayed ([argument of type 'NoneType' is not
    iterable]). *)
Theorem null_response_breaks_history :
  forall (srv : server) (wd : widgets) (s : session) (q : string) (tr : list request) (sh : list ui_msg),
    connected s = true ->
    In (q, JNull) (chat_history s) ->
    exists e, fst (run_script srv wd NoButton (mk_world s tr sh)) = Exc e /\ e <> Rerun.
Proof.
  intros srv wd [cl fl h cn] q tr sh Hc Hin; simpl in Hc, Hin; subst cn.
  rewrite in_rev in Hin. destruct (show_history_null _ _ Hin) as [e [E He]].
  exists e; split; [|exact He].
  unfold run_script, sidebar, tab_upload, tab_query, bind, get_session, ret, lift; simpl.
  destruct cl; simpl; destruct (w_files wd); simpl; rewrite E; reflexivity.
Qed.

(** X23: The comparison metrics are the four defaults followed, when the
    custom field is not empty, by one metric per comma-separated field;
    each custom metric contains no comma and neither starts nor ends
    with whitespace. *)
Theorem comparison_metrics_shape :
  forall (custom_metrics : string),
    firstn 4 (comparison_metrics custom_metrics) = ["Revenue"; "Net Profit"; "Gross Profit"; "Total Assets"] /\
    List.length (comparison_metrics custom_metrics)
      = 4 + (if nonempty custom_metrics then S (count_occ ascii_dec (chars custom_metrics) ","%char) else 0) /\
    (forall x, In x (skipn 4 (comparison_metrics custom_metrics)) ->
       ~ In ","%char (chars x) /\
       (forall c r, chars x = c :: r -> is_space c = false) /\
       (forall c r, chars x = (r ++ [c])%list -> is_space c = false)).
Proof.
  intros m. unfold comparison_metrics. split; [reflexivity|split].
  - rewrite length_app. destruct (nonempty m); [|reflexivity].
    rewrite length_map, split_commas_length; reflexivity.
  - intros x Hx. cbn [skipn app] in Hx. destruct (nonempty m); [|destruct Hx].
    apply in_map_iff in Hx as [y [<- Hy]]. unfold chars, of_chars; rewrite list_ascii_of_string_of_list_ascii.
    destruct (strip_props y) as [H1 [H2 H3]]. split; [|split; assumption].
    intros Hc. apply (split_commas_no_comma _ [] (fun H => H) y Hy), H1, Hc.
Qed.

(** X24: A custom-metrics field ending in a comma yields an empty metric
    name among the comparison metrics. *)
Theorem comparison_metrics_trailing_comma :
  forall (custom_metrics : string),
    In EmptyString (comparison_metrics (custom_metrics ++ ",")).
Proof.
  intros m. unfold comparison_metrics.
  assert (N : nonempty (m ++ ",") = true) by (destruct m; reflexivity).
  rewrite N, chars_app. destruct (split_commas_trailing (chars m) []) as [pre E].
  simpl chars. rewrite E, map_app. apply in_or_app; right; apply in_or_app; right; left; reflexivity.
Qed.

(** X25: No run removes or reorders uploaded names: the list after a run
    extends the list before it. *)
Theorem uploaded_files_monotone :
  forall (srv : server) (wd : widgets) (b : button) (s : session),
    exists suf, uploaded_files_list (fst (step srv wd b s)) = (uploaded_files_list s ++ suf)%list.
Proof.
  intros srv wd b s.
  apply (step_keeps srv (fun s' => exists suf, uploaded_files_list s' = (uploaded_files_list s ++ suf)%list)).
  - intros s' c H; exact H.
  - intros s' H; exact H.
  - intros s' n [suf E] _; exists (suf ++ [n])%list; simpl; rewrite E, app_assoc; reflexivity.
  - intros s' h H; exact H.
  - exists []; rewrite app_nil_r; reflexivity.
Qed.

(* ------------------------------------------------------------------ *)
(** ** Instances of the properties above *)

(** Both ids of [numeric_client] are integers: the v1 upload sends its
    request. *)
Lemma upload_file_v1_single_request_witness :
  parse_int (customer_id numeric_client) <> None /\ parse_int (corpus_id numeric_client) <> None /\
  (snd (upload_file_v1 numeric_client "data" "q3.txt" srv_accepting empty_world)
     = mk_world (ses empty_world) (trace empty_world ++ [ReqIndexV1 numeric_client "q3.txt" "data"])%list
                (shown empty_world) /\
   exists msg, result_of (upload_file_v1 numeric_client "data" "q3.txt" srv_accepting) empty_world
               = Ok (accepted (srv_accepting (ReqIndexV1 numeric_client "q3.txt" "data")), msg) /\
     (accepted (srv_accepting (ReqIndexV1 numeric_client "q3.txt" "data")) = true ->
      msg = "Successfully uploaded: " ++ "q3.txt")).
Proof.
  split; [vm_compute; discriminate|]. split; [vm_compute; discriminate|].
  apply upload_file_v1_single_request; vm_compute; discriminate.
Defined.


Lemma extract_no_results_all_na_witness :
  (truthy JNull = false \/
   exists d, JNull = JObj d /\ dict_get d "search_results" = None) /\
  extract_metrics_from_response JNull (Some ["Revenue"; "Net Profit"]) = Ok [("Revenue", "N/A"); ("Net Profit", "N/A")].
Proof.
  split; [left; reflexivity|].
  apply (extract_no_results_all_na JNull (Some ["Revenue"; "Net Profit"])). left; reflexivity.
Defined.

(** A repeated name gives one key. *)
Lemma extract_keys_exact_witness :
  extract_metrics_from_response (JObj (response_of [snippet "Revenue: $1,234.56"])) (Some ["Revenue"; "Revenue"])
    = Ok [("Revenue", "1234.56")] /\
  (NoDup (map fst [("Revenue", "1234.56")]) /\
   (forall n, In n (map fst [("Revenue", "1234.56")]) <-> In n (names_or_default (Some ["Revenue"; "Revenue"])))).
Proof.
  split; [vm_compute; reflexivity|].
  apply (extract_keys_exact (JObj (response_of [snippet "Revenue: $1,234.56"])) (Some ["Revenue"; "Revenue"])).
  vm_compute; reflexivity.
Defined.

Lemma extract_values_comma_free_witness :
  extract_metrics_from_response (JObj (response_of [snippet "Total Assets: $12,345,678.90"])) (Some ["Total Assets"])
    = Ok [("Total Assets", "12345678.90")] /\
  (forall k v, In (k, v) [("Total Assets", "12345678.90")] -> ~ In ","%char (chars v)).
Proof.
  split; [vm_compute; reflexivity|].
  apply (extract_values_comma_free (JObj (response_of [snippet "Total Assets: $12,345,678.90"])) (Some ["Total Assets"])).
  vm_compute; reflexivity.
Defined.

(** A numeric "text" field. *)
Lemma extract_non_string_text_raises_witness :
  dict_get [("search_results", JArr [JObj [("text", JNum 5)]])] "search_results"
    = Some (JArr (JObj [("text", JNum 5)] :: [])) /\
  dict_get [("text", JNum 5)] "text" = Some (JNum 5) /\
  (forall s, JNum 5 <> JStr s) /\
  extract_metrics_from_response (JObj [("search_results", JArr [JObj [("text", JNum 5)]])]) (Some ["Revenue"])
  = Exc (TypeError ("can only concatenate str (not " ++ dq ++ "int" ++ dq ++ ") to str")).
Proof.
  split; [reflexivity|]. split; [reflexivity|]. split; [intros s E; discriminate E|].
  apply (extract_non_string_text_raises [("search_results", JArr [JObj [("text", JNum 5)]])]
           [("text", JNum 5)] [] (JNum 5) (Some ["Revenue"])); [reflexivity|reflexivity|].
  intros s E; discriminate E.
Defined.

(** The session after connecting is consistent. *)
Lemma reachable_session_consistent_witness :
  let s1 := fst (step srv_accepting login_widgets ConnectButton init_session) in
  reachable srv_accepting s1 /\
  connected s1 = true /\
  ((connected s1 = true <-> vectara_client s1 <> None) /\ NoDup (uploaded_files_list s1)).
Proof.
  intro s1. assert (H : reachable srv_accepting s1) by (apply reach_step, reach_init).
  split; [exact H|]. split; [vm_compute; reflexivity|].
  exact (reachable_session_consistent srv_accepting s1 H).
Defined.

(** A search before connecting does nothing. *)
Lemma disconnected_only_connect_witness :
  connected init_session = false /\ SearchButton <> ConnectButton /\
  step srv_accepting login_widgets SearchButton init_session = (init_session, []).
Proof.
  split; [reflexivity|]. split; [discriminate|].
  apply disconnected_only_connect; [reflexivity|discriminate].
Defined.

(** Connect and search against a service that answers every request with
    200 and the body [null]: the search stores [null], and the next run
    raises while displaying the history. *)
Lemma null_response_breaks_history_witness :
  let s1 := fst (step srv_null_body login_widgets SearchButton
                   (fst (step srv_null_body login_widgets ConnectButton init_session))) in
  connected s1 = true /\
  In ("What is the revenue?", JNull) (chat_history s1) /\
  exists e, fst (run_script srv_null_body login_widgets NoButton (mk_world s1 [] [])) = Exc e /\ e <> Rerun.
Proof.
  intro s1.
  assert (H1 : connected s1 = true) by (vm_compute; reflexivity).
  assert (H2 : In ("What is the revenue?", JNull) (chat_history s1)) by (vm_compute; left; reflexivity).
  split; [exact H1|]. split; [exact H2|].
  exact (null_response_breaks_history srv_null_body login_widgets s1 "What is the revenue?" [] [] H1 H2).
Defined.
